(** * Uniswap client: fee tiers, V1 price arithmetic and trade construction

    A shallow embedding of
      - [uniswap/dto/enums.py]       ([FeeTier.create]),
      - [uniswap/dto/exceptions.py]  (the exception classes),
      - [uniswap/protocol/base.py]   ([BaseUniswap]: prices, trades, wrappers),
      - [uniswap/protocol/v1.py]     ([UniswapV1]: the V1 arithmetic),
    together with the part of Python's numeric semantics the code relies on:
    unbounded [int], binary64 [float], the mixed-mode arithmetic between
    them, true division [/] and the truncation [int(...)]. *)

From Stdlib Require Import ZArith Bool List String Lia.
From Stdlib Require Import SpecFloat.
Import ListNotations.

Local Open Scope string_scope.
Local Open Scope Z_scope.

(** ** Addresses *)

(** [AddressLike] of [uniswap/dto/types.py]: an address, compared with [==]. *)
Definition AddressLike := string.

Definition addr_eqb (a b : AddressLike) : bool := String.eqb a b.

(** ** Exceptions *)

Inductive exn : Type :=
  (* Python built-ins *)
  | ZeroDivisionError
  | OverflowError
  | ValueError
  | TypeError
  | NotImplementedError
  (* uniswap/dto/exceptions.py *)
  | InvalidToken (address : option AddressLike)
  | InsufficientBalance (had needed : Z)
  | UnknownNetworkId
  | UnsupportedUniSwapVersion (version : Z)
  | ExplicitFeeTierRequred
  | InvalidFeeTier
  | InvalidTokenArgument
  | FeeOnTranfer
  | CustomRoutes
  (* whatever the web3 transport raises *)
  | TransportError (what : string).

(** The name of the class an exception is an instance of. *)
Definition exn_name (e : exn) : string :=
  match e with
  | ZeroDivisionError => "ZeroDivisionError"
  | OverflowError => "OverflowError"
  | ValueError => "ValueError"
  | TypeError => "TypeError"
  | NotImplementedError => "NotImplementedError"
  | InvalidToken _ => "InvalidToken"
  | InsufficientBalance _ _ => "InsufficientBalance"
  | UnknownNetworkId => "UnknownNetworkId"
  | UnsupportedUniSwapVersion _ => "UnsupportedUniSwapVersion"
  | ExplicitFeeTierRequred => "ExplicitFeeTierRequred"
  | InvalidFeeTier => "InvalidFeeTier"
  | InvalidTokenArgument => "InvalidTokenArgument"
  | FeeOnTranfer => "FeeOnTranfer"
  | CustomRoutes => "CustomRoutes"
  | TransportError _ => "TransportError"
  end.

(** A computation returns a value or raises. *)
Inductive result (A : Type) : Type :=
  | Ok (a : A)
  | Raise (e : exn).

Arguments Ok {A} a.
Arguments Raise {A} e.

Definition bind {A B : Type} (c : result A) (k : A -> result B) : result B :=
  match c with
  | Ok a => k a
  | Raise e => Raise e
  end.

Declare Scope py_scope.
Delimit Scope py_scope with py.
Notation "x <- c ;; k" := (bind c (fun x => k))
  (at level 61, c at next level, right associativity) : py_scope.
Notation "' pat <- c ;; k" := (bind c (fun x => match x with pat => k end))
  (at level 61, pat pattern, c at next level, right associativity) : py_scope.
Local Open Scope py_scope.

Definition raises {A : Type} (c : result A) (name : string) : Prop :=
  exists e, c = Raise e /\ exn_name e = name.

Definition succeeds {A : Type} (c : result A) : Prop :=
  exists a, c = Ok a.

(** ** Python numbers *)

Module Py.

(** binary64 *)
Definition prec : Z := 53.
Definition emax : Z := 1024.

Definition float := spec_float.

(** A number is an [int] (unbounded) or a [float]. *)
Inductive num : Type :=
  | Int (z : Z)
  | Float (f : float).

(** An integer as an unrounded significand with exponent 0. *)
Definition exact_of_Z (z : Z) : float :=
  match z with
  | Z0 => S754_zero false
  | Zpos p => S754_finite false p 0
  | Zneg p => S754_finite true p 0
  end.

(** [float(z)]: rounded to nearest, ties to even; [OverflowError] when the
    integer is too large for a float. *)
Definition float_of_int (z : Z) : result float :=
  match binary_normalize prec emax z 0 false with
  | S754_infinity _ => Raise OverflowError
  | f => Ok f
  end.

Definition is_zero (f : float) : bool :=
  match f with
  | S754_zero _ => true
  | _ => false
  end.

(** [a / b] on two ints: the correctly rounded quotient of the exact
    integers (no intermediate conversion of [a] and [b]). *)
Definition int_true_divide (a b : Z) : result float :=
  if b =? 0 then Raise ZeroDivisionError
  else match SFdiv prec emax (exact_of_Z a) (exact_of_Z b) with
       | S754_infinity _ => Raise OverflowError
       | f => Ok f
       end.

(** [x / y] on two floats. *)
Definition float_div (x y : float) : result float :=
  if is_zero y then Raise ZeroDivisionError else Ok (SFdiv prec emax x y).

Definition to_float (x : num) : result float :=
  match x with
  | Int z => float_of_int z
  | Float f => Ok f
  end.

(** Binary operators: ints stay ints; as soon as one operand is a float the
    other one is converted and the operation is the float one. *)
Definition arith (fi : Z -> Z -> Z) (ff : float -> float -> float)
  (x y : num) : result num :=
  match x, y with
  | Int a, Int b => Ok (Int (fi a b))
  | _, _ =>
      a <- to_float x ;;
      b <- to_float y ;;
      Ok (Float (ff a b))
  end.

Definition add : num -> num -> result num := arith Z.add (SFadd prec emax).
Definition sub : num -> num -> result num := arith Z.sub (SFsub prec emax).
Definition mul : num -> num -> result num := arith Z.mul (SFmul prec emax).

Definition truediv (x y : num) : result num :=
  match x, y with
  | Int a, Int b => f <- int_true_divide a b ;; Ok (Float f)
  | _, _ =>
      a <- to_float x ;;
      b <- to_float y ;;
      f <- float_div a b ;;
      Ok (Float f)
  end.

(** The integer part of a finite float, rounding toward zero. *)
Definition trunc_finite (s : bool) (m : positive) (e : Z) : Z :=
  let a := match e with
           | Z0 => Zpos m
           | Zpos _ => Zpos m * 2 ^ e
           | Zneg _ => Zpos m / 2 ^ (- e)
           end in
  if s then - a else a.

(** [int(x)] *)
Definition int (x : num) : result Z :=
  match x with
  | Int z => Ok z
  | Float S754_nan => Raise ValueError
  | Float (S754_infinity _) => Raise OverflowError
  | Float (S754_zero _) => Ok 0
  | Float (S754_finite s m e) => Ok (trunc_finite s m e)
  end.

(** [math.ceil(x)] *)
Definition ceil (x : num) : result Z :=
  match x with
  | Int z => Ok z
  | Float S754_nan => Raise ValueError
  | Float (S754_infinity _) => Raise OverflowError
  | Float (S754_zero _) => Ok 0
  | Float (S754_finite s m e) =>
      Ok (match e with
          | Zneg _ =>
              let v := if s then Zneg m else Zpos m in
              - ((- v) / 2 ^ (- e))
          | _ => trunc_finite s m e
          end)
  end.

(** Exact comparison of a float with an integer ([None]: unordered). *)
Definition float_compare_int (f : float) (z : Z) : option comparison :=
  match f with
  | S754_nan => None
  | S754_infinity s => Some (if s then Lt else Gt)
  | S754_zero _ => Some (0 ?= z)
  | S754_finite s m e =>
      let v := if s then Zneg m else Zpos m in
      Some (match e with
            | Zneg _ => v ?= z * 2 ^ (- e)
            | _ => v * 2 ^ e ?= z
            end)
  end.

(** [x ?= y] on numbers, as the rich comparisons of [int] and [float] see it. *)
Definition compare (x y : num) : option comparison :=
  match x, y with
  | Int a, Int b => Some (a ?= b)
  | Float f, Int b => float_compare_int f b
  | Int a, Float g => option_map CompOpp (float_compare_int g a)
  | Float f, Float g => SFcompare f g
  end.


Definition gt (x y : num) : bool :=
  match compare x y with
  | Some Gt => true
  | _ => false
  end.

(** [1.0], what the int [1] becomes next to a float. *)
Definition one : float := S754_finite false 4503599627370496 (-52).

(** The literals of the source. *)
Definition lit_1_2 : float := S754_finite false 5404319552844595 (-52).
Definition lit_0_01 : float := S754_finite false 5764607523034235 (-59).

End Py.

(** Expressions: operands are evaluated left to right, then the operator is
    applied; the first exception raised ends the evaluation. *)
Definition op2 (f : Py.num -> Py.num -> result Py.num)
  (x y : result Py.num) : result Py.num :=
  a <- x ;; b <- y ;; f a b.

Definition int_ (x : result Py.num) : result Z := a <- x ;; Py.int a.

Coercion Py.Int : Z >-> Py.num.
Coercion Py.Float : Py.float >-> Py.num.
Definition val (x : Py.num) : result Py.num := Ok x.
Coercion val : Py.num >-> result.

Declare Scope pyx_scope.
Delimit Scope pyx_scope with pyx.
Notation "x + y" := (op2 Py.add x y) : pyx_scope.
Notation "x - y" := (op2 Py.sub x y) : pyx_scope.
Notation "x * y" := (op2 Py.mul x y) : pyx_scope.
Notation "x / y" := (op2 Py.truediv x y) : pyx_scope.

(** ** uniswap/dto/enums.py *)

Module FeeTier.

Inductive t : Type := TIER_100 | TIER_500 | TIER_3000 | TIER_10000.

(** The members are ints ([enum.IntEnum]). *)
Definition value (f : t) : Z :=
  match f with
  | TIER_100 => 100
  | TIER_500 => 500
  | TIER_3000 => 3000
  | TIER_10000 => 10000
  end.

(** [FeeTier(value)]: the member with that value, [None] for [ValueError]. *)
Definition of_value (v : Z) : option t :=
  if v =? 100 then Some TIER_100
  else if v =? 500 then Some TIER_500
  else if v =? 3000 then Some TIER_3000
  else if v =? 10000 then Some TIER_10000
  else None.

Definition is_None {A : Type} (o : option A) : bool :=
  match o with
  | None => true
  | Some _ => false
  end.

(** [value or FeeTier.TIER_3000]: [None] and [0] are falsy. *)
Definition or_TIER_3000 (v : option Z) : Z :=
  match v with
  | None => value TIER_3000
  | Some z => if z =? 0 then value TIER_3000 else z
  end.

Definition create (value_ : option Z) (version : Z) : result t :=
  if (version =? 3) && is_None value_ then Raise ExplicitFeeTierRequred
  else
    let value_ := or_TIER_3000 value_ in
    if (version <? 3) && negb (value_ =? value TIER_3000) then Raise InvalidFeeTier
    else match of_value value_ with
         | Some f => Ok f
         | None => Raise InvalidFeeTier
         end.

End FeeTier.

(** ** What the client is connected to *)

Definition HexBytes := string.

Inductive arg : Type :=
  | AInt (z : Z)
  | AAddr (a : AddressLike).

(** A bound contract function: [contract.functions.name(args...)]. *)
Record ContractFunction : Type := {
  fn_contract : AddressLike;
  fn_name : string;
  fn_args : list arg
}.

(** The node behind [self.w3], read at one moment, and the helpers of
    [uniswap/util.py], [uniswap/decorators.py] and [uniswap/dto/constants.py]
    the code calls. *)
Record Env : Type := {
  ETH_ADDRESS : AddressLike;
  (* w3.eth.get_balance(addr) *)
  get_balance : AddressLike -> Z;
  (* _load_contract_erc20(w3, token).functions.balanceOf(holder).call() *)
  balanceOf : AddressLike -> AddressLike -> Z;
  (* factory.functions.getExchange(token).call() *)
  getExchange : AddressLike -> AddressLike;
  (* exchange.functions.<name>(qty).call() *)
  call : AddressLike -> string -> Z -> result Z;
  (* function.build_transaction, sign, w3.eth.send_raw_transaction *)
  send : ContractFunction -> Z -> result HexBytes;
  (* int(time.time()) *)
  time : Z;
  (* util._validate_address *)
  _validate_address : AddressLike -> result unit;
  (* util.is_same_address *)
  is_same_address : AddressLike -> AddressLike -> bool;
  (* what decorators.check_approval does before the method it wraps *)
  check_approval : AddressLike -> AddressLike -> result unit
}.

(** [not recipient]: [None] and the empty string are falsy. *)
Definition falsy (r : option AddressLike) : bool :=
  match r with
  | None => true
  | Some a => addr_eqb a ""
  end.

(** One client object: the attributes of [BaseUniswap] the code reads and
    the methods each protocol version overrides. *)
Record Uniswap : Type := {
  address : AddressLike;
  default_slippage : Py.float;
  _version : Z;
  _get_eth_token_input_price :
    AddressLike -> Z -> FeeTier.t -> result Z;
  _get_token_eth_input_price :
    AddressLike -> Z -> FeeTier.t -> result Z;
  _get_token_token_input_price :
    AddressLike -> AddressLike -> Z -> FeeTier.t ->
    option (list AddressLike) -> result Z;
  _get_eth_token_output_price :
    AddressLike -> Z -> option FeeTier.t -> result Z;
  _get_token_eth_output_price :
    AddressLike -> Z -> option FeeTier.t -> result Z;
  _get_token_token_output_price :
    AddressLike -> AddressLike -> Z -> option FeeTier.t ->
    option (list AddressLike) -> result Z;
  _eth_to_token_swap_input :
    AddressLike -> Z -> option AddressLike -> FeeTier.t -> Py.float ->
    bool -> result HexBytes;
  _token_to_eth_swap_input :
    AddressLike -> Z -> option AddressLike -> FeeTier.t -> Py.float ->
    bool -> result HexBytes;
  _token_to_token_swap_input :
    AddressLike -> AddressLike -> Z -> option AddressLike -> FeeTier.t ->
    Py.float -> bool -> result HexBytes;
  _eth_to_token_swap_output :
    AddressLike -> Z -> option AddressLike -> FeeTier.t -> Py.float ->
    result HexBytes;
  _token_to_eth_swap_output :
    AddressLike -> Z -> option AddressLike -> FeeTier.t -> Py.float ->
    result HexBytes;
  _token_to_token_swap_output :
    AddressLike -> AddressLike -> Z -> option AddressLike -> FeeTier.t ->
    Py.float -> result HexBytes
}.

(** ** uniswap/protocol/base.py *)

Module BaseUniswap.
Section Base.

Variable env : Env.
Variable self : Uniswap.

Let ETH := ETH_ADDRESS env.

(** *** Wallet balance *)

Definition get_eth_balance : Z := get_balance env (address self).

Definition get_token_balance (token : AddressLike) : result Z :=
  _ <- _validate_address env token ;;
  if addr_eqb token ETH then Ok get_eth_balance
  else Ok (balanceOf env token (address self)).

(** *** Tx utils *)

Definition _deadline : Z := time env + 10 * 60.

(** The [value] entry of the transaction parameters; [from] and [nonce]
    belong to the transport. *)
Definition TxParams := Z.

Definition _get_tx_params (value : Z) : TxParams := value.

Definition _build_and_send_tx (function : ContractFunction)
  (tx_params : option TxParams) : result HexBytes :=
  let tx_params :=
    match tx_params with
    | Some p => p
    | None => _get_tx_params 0
    end in
  send env function tx_params.

(** *** Market *)

Definition get_price_input (token0 token1 : AddressLike) (qty : Z)
  (fee : option Z) (route : option (list AddressLike)) : result Z :=
  fee <- FeeTier.create fee (_version self) ;;
  if addr_eqb token0 ETH then
    _get_eth_token_input_price self token1 qty fee
  else if addr_eqb token1 ETH then
    _get_token_eth_input_price self token0 qty fee
  else
    _get_token_token_input_price self token0 token1 qty fee route.

Definition get_price_output (token0 token1 : AddressLike) (qty : Z)
  (fee : option Z) (route : option (list AddressLike)) : result Z :=
  fee <- FeeTier.create fee (_version self) ;;
  if is_same_address env token0 ETH then
    _get_eth_token_output_price self token1 qty (Some fee)
  else if is_same_address env token1 ETH then
    _get_token_eth_output_price self token0 qty (Some fee)
  else
    _get_token_token_output_price self token0 token1 qty (Some fee) route.

(** *** Make trade: the balance-checking wrappers *)

Definition _wrap_eth_to_token_swap_input (output_token : AddressLike)
  (qty : Z) (recipient : option AddressLike) (fee : FeeTier.t)
  (slippage : Py.float) (fee_on_transfer : bool) : result HexBytes :=
  if addr_eqb output_token ETH then Raise InvalidTokenArgument
  else
    let eth_balance := get_eth_balance in
    if qty >? eth_balance then Raise (InsufficientBalance eth_balance qty)
    else
      _eth_to_token_swap_input self output_token qty recipient fee slippage
        fee_on_transfer.

Definition _wrap_token_to_eth_swap_input (input_token : AddressLike)
  (qty : Z) (recipient : option AddressLike) (fee : FeeTier.t)
  (slippage : Py.float) (fee_on_transfer : bool) : result HexBytes :=
  if addr_eqb input_token ETH then Raise InvalidTokenArgument
  else
    input_balance <- get_token_balance input_token ;;
    if qty >? input_balance then Raise (InsufficientBalance input_balance qty)
    else
      _token_to_eth_swap_input self input_token qty recipient fee slippage
        fee_on_transfer.

Definition _wrap_token_to_token_swap_input
  (input_token output_token : AddressLike) (qty : Z)
  (recipient : option AddressLike) (fee : FeeTier.t) (slippage : Py.float)
  (fee_on_transfer : bool) : result HexBytes :=
  input_balance <- get_token_balance input_token ;;
  if qty >? input_balance then Raise (InsufficientBalance input_balance qty)
  else if addr_eqb ETH input_token || addr_eqb ETH output_token then
    Raise InvalidTokenArgument
  else
    let recipient := if falsy recipient then Some (address self) else recipient in
    _token_to_token_swap_input self input_token output_token qty recipient
      fee slippage fee_on_transfer.

Definition _wrap_eth_to_token_swap_output (output_token : AddressLike)
  (qty : Z) (recipient : option AddressLike) (fee : FeeTier.t)
  (slippage : Py.float) : result HexBytes :=
  if addr_eqb output_token ETH then Raise InvalidTokenArgument
  else
    let eth_balance := get_eth_balance in
    cost <- _get_eth_token_output_price self output_token qty (Some fee) ;;
    amount_in_max <- int_ ((1 + slippage) * cost)%pyx ;;
    if amount_in_max >? eth_balance then
      Raise (InsufficientBalance eth_balance amount_in_max)
    else
      _eth_to_token_swap_output self output_token qty recipient fee slippage.

Definition _wrap_token_to_eth_swap_output (input_token : AddressLike)
  (qty : Z) (recipient : option AddressLike) (fee : FeeTier.t)
  (slippage : Py.float) : result HexBytes :=
  if addr_eqb input_token ETH then Raise InvalidTokenArgument
  else
    input_balance <- get_token_balance input_token ;;
    cost <- _get_token_eth_output_price self input_token qty (Some fee) ;;
    amount_in_max <- int_ ((1 + slippage) * cost)%pyx ;;
    if amount_in_max >? input_balance then
      Raise (InsufficientBalance input_balance amount_in_max)
    else
      _token_to_eth_swap_output self input_token qty recipient fee slippage.

Definition _wrap_token_to_token_swap_output
  (input_token output_token : AddressLike) (qty : Z)
  (recipient : option AddressLike) (fee : FeeTier.t) (slippage : Py.float)
  : result HexBytes :=
  if addr_eqb ETH input_token || addr_eqb ETH output_token then
    Raise InvalidTokenArgument
  else
    input_balance <- get_token_balance input_token ;;
    cost <- _get_token_token_output_price self input_token output_token qty
              (Some fee) None ;;
    amount_in_max <- int_ ((1 + slippage) * cost)%pyx ;;
    if amount_in_max >? input_balance then
      Raise (InsufficientBalance input_balance amount_in_max)
    else
      _token_to_token_swap_output self input_token output_token qty recipient
        fee slippage.

(** *** Make trade: the public methods *)

Definition slippage_or_default (slippage : option Py.float) : Py.float :=
  match slippage with
  | Some s => s
  | None => default_slippage self
  end.

Definition make_trade (input_token output_token : AddressLike) (qty : Py.num)
  (recipient : option AddressLike) (fee : option Z)
  (slippage : option Py.float) (fee_on_transfer : bool) : result HexBytes :=
  _ <- check_approval env input_token output_token ;;
  match qty with
  | Py.Float _ => Raise TypeError
  | Py.Int qty =>
      fee <- FeeTier.create fee (_version self) ;;
      let slippage := slippage_or_default slippage in
      if addr_eqb input_token output_token then Raise InvalidTokenArgument
      else if addr_eqb input_token ETH then
        _wrap_eth_to_token_swap_input output_token qty recipient fee slippage
          fee_on_transfer
      else if addr_eqb output_token ETH then
        _wrap_token_to_eth_swap_input input_token qty recipient fee slippage
          fee_on_transfer
      else
        _wrap_token_to_token_swap_input input_token output_token qty recipient
          fee slippage fee_on_transfer
  end.

Definition make_trade_output (input_token output_token : AddressLike)
  (qty : Z) (recipient : option AddressLike) (fee : option Z)
  (slippage : option Py.float) : result HexBytes :=
  _ <- check_approval env input_token output_token ;;
  fee <- FeeTier.create fee (_version self) ;;
  let slippage := slippage_or_default slippage in
  if addr_eqb input_token output_token then Raise InvalidTokenArgument
  else if addr_eqb input_token ETH then
    let balance := get_eth_balance in
    need <- _get_eth_token_output_price self output_token qty (Some fee) ;;
    if balance <? need then Raise (InsufficientBalance balance need)
    else _wrap_eth_to_token_swap_output output_token qty recipient fee slippage
  else if addr_eqb output_token ETH then
    _wrap_token_to_eth_swap_output input_token qty recipient fee slippage
  else
    _wrap_token_to_token_swap_output input_token output_token qty recipient
      fee slippage.

End Base.
End BaseUniswap.

(** ** uniswap/protocol/v1.py *)

Module UniswapV1.
Section V1.

Variable env : Env.

(** The wallet address and default slippage of the client. *)
Variable address_ : AddressLike.
Variable default_slippage_ : Py.float.

(** [UniswapV1] does not override [BaseUniswap._version = 0]. *)
Definition version_ : Z := 0.

(** *** UniswapV1Utils *)

(** The [supports] gate of [uniswap/decorators.py] lets the call through. *)
Definition _exchange_address_from_token (token_addr : AddressLike)
  : AddressLike :=
  getExchange env token_addr.

Definition get_ex_eth_balance (token : AddressLike) : Z :=
  let ex_addr := _exchange_address_from_token token in
  get_balance env ex_addr.

Definition get_ex_token_balance (token : AddressLike) : Z :=
  balanceOf env token (_exchange_address_from_token token).

(** [exchange(token_addr)], [ex_addr] left at [None]; the loaded contract is
    identified with its address. *)
Definition exchange (token_addr : AddressLike) : result AddressLike :=
  let ex_addr :=
    if negb (addr_eqb token_addr "") then
      Some (_exchange_address_from_token token_addr)
    else None in
  match ex_addr with
  | None => Raise (InvalidToken (Some token_addr))
  | Some a => Ok a
  end.

Definition functions (ex : AddressLike) (name : string) (args : list arg)
  : ContractFunction :=
  {| fn_contract := ex; fn_name := name; fn_args := args |}.

Let _deadline := time env + 10 * 60.

Let _build_and_send_tx (function : ContractFunction)
  (tx_params : option Z) : result HexBytes :=
  send env function
    match tx_params with
    | Some p => p
    | None => 0
    end.

(** *** Market *)

Definition _get_eth_token_input_price (token : AddressLike) (qty : Z)
  (fee : FeeTier.t) : result Z :=
  ex <- exchange token ;;
  call env ex "getEthToTokenInputPrice" qty.

Definition _get_token_eth_input_price (token : AddressLike) (qty : Z)
  (fee : FeeTier.t) : result Z :=
  ex <- exchange token ;;
  call env ex "getTokenToEthInputPrice" qty.

Definition _get_eth_token_output_price (token : AddressLike) (qty : Z)
  (fee : option FeeTier.t) : result Z :=
  ex <- exchange token ;;
  call env ex "getEthToTokenOutputPrice" qty.

Definition _get_token_eth_output_price (token : AddressLike) (qty : Z)
  (fee : option FeeTier.t) : result Z :=
  ex <- exchange token ;;
  call env ex "getTokenToEthOutputPrice" qty.

Definition _get_token_token_input_price (token0 token1 : AddressLike)
  (qty : Z) (fee : FeeTier.t) (route : option (list AddressLike))
  : result Z :=
  Raise (UnsupportedUniSwapVersion version_).

Definition _get_token_token_output_price (token0 token1 : AddressLike)
  (qty : Z) (fee : option FeeTier.t) (route : option (list AddressLike))
  : result Z :=
  Raise (UnsupportedUniSwapVersion version_).

(** *** Price calculation utils *)

(** The cost of an exact output, as [_token_to_eth_swap_output] computes its
    [inputAmount] from [outputAmount], [inputReserve] and [outputReserve]. *)
Definition inputAmount_of (outputAmount inputReserve outputReserve : Py.num)
  : result Py.num :=
  numerator <- (outputAmount * inputReserve * 1000)%pyx ;;
  denominator <- ((outputReserve - outputAmount) * 997)%pyx ;;
  (numerator / denominator + 1)%pyx.

(** The amount bought by an exact input, as [_calculate_max_output_token]
    computes its [outputAmountA] from [inputAmountA], [inputReserveA] and
    [outputReserveA]. *)
Definition outputAmount_of (inputAmount inputReserve outputReserve : Py.num)
  : result Py.num :=
  numerator <- (inputAmount * outputReserve * 997)%pyx ;;
  denominator <- (inputReserve * 1000 + inputAmount * 997)%pyx ;;
  (numerator / denominator)%pyx.

Definition _calculate_max_input_token (input_token : AddressLike) (qty : Z)
  (output_token : AddressLike) : result (Z * Z) :=
  (* Buy TokenB with ETH *)
  let output_amount_b : Py.num := qty in
  let input_reserve_b : Py.num := get_ex_eth_balance output_token in
  let output_reserve_b : Py.num := get_ex_token_balance output_token in
  (* Cost *)
  numerator_b <- (output_amount_b * input_reserve_b * 1000)%pyx ;;
  denominator_b <- ((output_reserve_b - output_amount_b) * 997)%pyx ;;
  input_amount_b <- (numerator_b / denominator_b + 1)%pyx ;;
  (* Buy ETH with TokenA *)
  let output_amount_a : Py.num := input_amount_b in
  let input_reserve_a : Py.num := get_ex_token_balance input_token in
  let output_reserve_a : Py.num := get_ex_eth_balance input_token in
  (* Cost *)
  numerator_a <- (output_amount_a * input_reserve_a * 1000)%pyx ;;
  denominator_a <- ((output_reserve_a - output_amount_a) * 997)%pyx ;;
  input_amount_a <- (numerator_a / denominator_a - 1)%pyx ;;
  r1 <- int_ input_amount_a ;;
  r2 <- int_ (Py.lit_1_2 * input_amount_b)%pyx ;;
  Ok (r1, r2).

Definition _calculate_max_output_token (output_token : AddressLike) (qty : Z)
  (input_token : AddressLike) : result (Z * Z) :=
  (* TokenA (ERC20) to ETH conversion *)
  let inputAmountA : Py.num := qty in
  let inputReserveA : Py.num := get_ex_token_balance input_token in
  let outputReserveA : Py.num := get_ex_eth_balance input_token in
  (* Cost *)
  numeratorA <- (inputAmountA * outputReserveA * 997)%pyx ;;
  denominatorA <- (inputReserveA * 1000 + inputAmountA * 997)%pyx ;;
  outputAmountA <- (numeratorA / denominatorA)%pyx ;;
  (* ETH to TokenB conversion *)
  let inputAmountB : Py.num := outputAmountA in
  let inputReserveB : Py.num := get_ex_token_balance output_token in
  let outputReserveB : Py.num := get_ex_eth_balance output_token in
  (* Cost *)
  numeratorB <- (inputAmountB * outputReserveB * 997)%pyx ;;
  denominatorB <- (inputReserveB * 1000 + inputAmountB * 997)%pyx ;;
  outputAmountB <- (numeratorB / denominatorB)%pyx ;;
  r1 <- int_ outputAmountB ;;
  r2 <- int_ (Py.lit_1_2 * outputAmountA)%pyx ;;
  Ok (r1, r2).

(** *** Make trade *)

(** [if not recipient: swap(func_params) else: transfer(func_params +
    [recipient])] *)
Definition swap_or_transfer (ex : AddressLike) (recipient : option AddressLike)
  (swap transfer : string) (func_params : list arg) : ContractFunction :=
  match recipient with
  | Some r =>
      if addr_eqb r "" then functions ex swap func_params
      else functions ex transfer (func_params ++ [AAddr r])%list
  | None => functions ex swap func_params
  end.

(** The same with [func_params.insert(len(func_params) - 1, recipient)]. *)
Definition swap_or_transfer_insert (ex : AddressLike)
  (recipient : option AddressLike) (swap transfer : string)
  (func_params : list arg) : ContractFunction :=
  match recipient with
  | Some r =>
      if addr_eqb r "" then functions ex swap func_params
      else
        let n := (List.length func_params - 1)%nat in
        functions ex transfer
          (firstn n func_params ++ [AAddr r] ++ skipn n func_params)%list
  | None => functions ex swap func_params
  end.

Definition _eth_to_token_swap_input (output_token : AddressLike) (qty : Z)
  (recipient : option AddressLike) (fee : FeeTier.t) (slippage : Py.float)
  (fee_on_transfer : bool) : result HexBytes :=
  ex <- exchange output_token ;;
  let tx_params := qty in
  let func_params := [AInt qty; AInt _deadline] in
  let function :=
    swap_or_transfer ex recipient "ethToTokenSwapInput"
      "ethToTokenTransferInput" func_params in
  _build_and_send_tx function (Some tx_params).

Definition _token_to_eth_swap_input (input_token : AddressLike) (qty : Z)
  (recipient : option AddressLike) (fee : FeeTier.t) (slippage : Py.float)
  (fee_on_transfer : bool) : result HexBytes :=
  ex <- exchange input_token ;;
  let func_params := [AInt qty; AInt 1; AInt _deadline] in
  let function :=
    swap_or_transfer ex recipient "tokenToEthSwapInput"
      "tokenToEthTransferInput" func_params in
  _build_and_send_tx function None.

Definition _token_to_token_swap_input (input_token output_token : AddressLike)
  (qty : Z) (recipient : option AddressLike) (fee : FeeTier.t)
  (slippage : Py.float) (fee_on_transfer : bool) : result HexBytes :=
  ex <- exchange input_token ;;
  '(min_tokens_bought, min_eth_bought) <-
    _calculate_max_output_token input_token qty output_token ;;
  let func_params :=
    [AInt qty; AInt min_tokens_bought; AInt min_eth_bought; AInt _deadline;
     AAddr output_token] in
  let function :=
    swap_or_transfer_insert ex recipient "tokenToTokenSwapInput"
      "tokenToTokenTransferInput" func_params in
  _build_and_send_tx function None.

Definition _eth_to_token_swap_output (output_token : AddressLike) (qty : Z)
  (recipient : option AddressLike) (fee : FeeTier.t) (slippage : Py.float)
  : result HexBytes :=
  ex <- exchange output_token ;;
  eth_qty <- _get_eth_token_output_price output_token qty None ;;
  let tx_params := eth_qty in
  let func_params := [AInt qty; AInt _deadline] in
  let function :=
    swap_or_transfer ex recipient "ethToTokenSwapOutput"
      "ethToTokenTransferOutput" func_params in
  _build_and_send_tx function (Some tx_params).

Definition _token_to_eth_swap_output (input_token : AddressLike) (qty : Z)
  (recipient : option AddressLike) (fee : FeeTier.t) (slippage : Py.float)
  : result HexBytes :=
  let outputAmount : Py.num := qty in
  let inputReserve : Py.num := get_ex_token_balance input_token in
  let outputReserve : Py.num := get_ex_eth_balance input_token in
  numerator <- (outputAmount * inputReserve * 1000)%pyx ;;
  denominator <- ((outputReserve - outputAmount) * 997)%pyx ;;
  inputAmount <- (numerator / denominator + 1)%pyx ;;
  max_tokens <- int_ ((1 + slippage) * inputAmount)%pyx ;;
  ex <- exchange input_token ;;
  let func_params := [AInt qty; AInt max_tokens; AInt _deadline] in
  let function :=
    swap_or_transfer ex recipient "tokenToEthSwapOutput"
      "tokenToEthTransferOutput" func_params in
  _build_and_send_tx function None.

Definition _token_to_token_swap_output (input_token output_token : AddressLike)
  (qty : Z) (recipient : option AddressLike) (fee : FeeTier.t)
  (slippage : Py.float) : result HexBytes :=
  ex <- exchange input_token ;;
  '(max_tokens_sold, max_eth_sold) <-
    _calculate_max_input_token input_token qty output_token ;;
  let tx_params := 0 in
  let func_params :=
    [AInt qty; AInt max_tokens_sold; AInt max_eth_sold; AInt _deadline;
     AAddr output_token] in
  let function :=
    swap_or_transfer_insert ex recipient "tokenToTokenSwapOutput"
      "tokenToTokenTransferOutput" func_params in
  _build_and_send_tx function (Some tx_params).

(** The client object. *)
Definition client : Uniswap :=
  Build_Uniswap address_ default_slippage_ version_
    _get_eth_token_input_price _get_token_eth_input_price
    _get_token_token_input_price
    _get_eth_token_output_price _get_token_eth_output_price
    _get_token_token_output_price
    _eth_to_token_swap_input _token_to_eth_swap_input
    _token_to_token_swap_input
    _eth_to_token_swap_output _token_to_eth_swap_output
    _token_to_token_swap_output.

End V1.
End UniswapV1.

(** ** The formulas as the specification words them

    Integer arithmetic throughout, the division cut toward zero. *)

Module Spec.

Definition exact_input (amountIn reserveIn reserveOut : Z) : Z :=
  let numerator := amountIn * reserveOut * 997 in
  let denominator := reserveIn * 1000 + amountIn * 997 in
  Z.quot numerator denominator.

Definition exact_output (amountOut reserveIn reserveOut : Z) : Z :=
  let numerator := amountOut * reserveIn * 1000 in
  let denominator := (reserveOut - amountOut) * 997 in
  Z.quot numerator denominator + 1.

(** Two hops for an exact output: the bridge amount that buys the output,
    then the input that buys the bridge amount. *)
Definition two_hop_exact_output (amountOut : Z)
  (reserveIn_a reserveOut_a reserveIn_b reserveOut_b : Z) : Z :=
  let bridge := exact_output amountOut reserveIn_b reserveOut_b in
  exact_output bridge reserveIn_a reserveOut_a.

End Spec.

(** ** Rounding

    What the proofs about [binary_round_aux] keep track of. *)

Module Round.

(** The record of a right shift describes [N / D]: its integer part, and
    where the remainder lies with respect to the half. *)
Definition loc_rec (mrs : shr_record) (N D : Z) : Prop :=
  0 < D /\ 0 <= N /\
  shr_m mrs = N / D /\
  shr_r mrs = (D <=? 2 * (N mod D)) /\
  shr_s mrs = negb (N mod D =? 0) && negb (2 * (N mod D) =? D).

(** The float [m * 2 ^ e], with a significand of 53 bits, is the fraction
    [N / D] rounded: it is within half a unit of its last place of [N / D],
    and [N / D] is not below its binade by more than a quarter of that unit.
    Both sides are scaled by [2 ^ 1074] to stay in the integers. *)
Definition rounded (N D : Z) (m : positive) (e : Z) : Prop :=
  2 ^ 52 <= Zpos m < 2 ^ 53 /\
  -1074 <= e <= 971 /\
  Z.abs (2 * (Zpos m * 2 ^ (e + 1074) * D - N * 2 ^ 1074))
  <= 2 ^ (e + 1074) * D /\
  (2 ^ 54 - 1) * (2 ^ (e + 1074) * D) <= 4 * (N * 2 ^ 1074).

End Round.

(** ** A test bench

    Two tokens ["A"] and ["B"] with their exchanges ["exA"] and ["exB"], and
    the wallet ["me"]; every price call answers [price] and every
    transaction is accepted. *)

Module Fixture.

Definition ETH : AddressLike := "0x0000000000000000000000000000000000000000".

Record Pools : Type := {
  tokenA : Z;   (* token A held by exA *)
  ethA : Z;     (* ETH held by exA *)
  tokenB : Z;   (* token B held by exB *)
  ethB : Z      (* ETH held by exB *)
}.

Definition env (pools : Pools) (wallet_eth wallet_token price : Z) : Env :=
  {| ETH_ADDRESS := ETH;
     get_balance := fun a =>
       if addr_eqb a "exA" then ethA pools
       else if addr_eqb a "exB" then ethB pools
       else wallet_eth;
     balanceOf := fun token holder =>
       if addr_eqb holder "me" then wallet_token
       else if addr_eqb token "A" then tokenA pools
       else tokenB pools;
     getExchange := fun token => ("ex" ++ token)%string;
     call := fun _ _ _ => Ok price;
     send := fun _ _ => Ok "0xtx";
     time := 1700000000;
     _validate_address := fun _ => Ok tt;
     is_same_address := addr_eqb;
     check_approval := fun _ _ => Ok tt |}.

Definition pools : Pools :=
  {| tokenA := 1000000; ethA := 3000000; tokenB := 2000000; ethB := 4000000 |}.

(** The V1 client of the wallet, with the default slippage 0.01. *)
Definition v1 (e : Env) : Uniswap := UniswapV1.client e "me" Py.lit_0_01.

End Fixture.

(** * Properties *)

(** ** Literals *)

Example lit_1_2_is_12_over_10 : Py.int_true_divide 12 10 = Ok Py.lit_1_2.
Proof. vm_compute. reflexivity. Qed.

Example lit_0_01_is_1_over_100 : Py.int_true_divide 1 100 = Ok Py.lit_0_01.
Proof. vm_compute. reflexivity. Qed.

(** ** The error monad *)

Lemma bind_Ok {A B : Type} (a : A) (k : A -> result B) : bind (Ok a) k = k a.
Proof. reflexivity. Qed.

Lemma bind_Raise {A B : Type} (e : exn) (k : A -> result B) :
  bind (Raise e) k = Raise e.
Proof. reflexivity. Qed.

Lemma bind_Ok_inv {A B : Type} (c : result A) (k : A -> result B) (b : B) :
  bind c k = Ok b -> exists a, c = Ok a /\ k a = Ok b.
Proof.
  destruct c as [a | e]; simpl; intros H.
  - exists a. split; [reflexivity | exact H].
  - discriminate H.
Qed.

Lemma op2_eq (f : Py.num -> Py.num -> result Py.num) (x y : result Py.num) :
  op2 f x y = (a <- x ;; b <- y ;; f a b).
Proof. reflexivity. Qed.

Lemma raises_Raise {A : Type} (e : exn) :
  raises (@Raise A e) (exn_name e).
Proof. exists e. split; reflexivity. Qed.

Lemma Ok_not_raises {A : Type} (a : A) (name : string) :
  ~ raises (Ok a) name.
Proof. intros [e [H _]]. discriminate H. Qed.

Lemma Raise_not_raises {A : Type} (e : exn) (name : string) :
  exn_name e <> name -> ~ raises (@Raise A e) name.
Proof.
  intros Hne [e' [H Hn]]. injection H as <-. exact (Hne Hn).
Qed.

(** No exception class of the code is called [InsufficientLiquidity]. *)
Lemma no_InsufficientLiquidity (e : exn) :
  exn_name e <> "InsufficientLiquidity".
Proof. destruct e; discriminate. Qed.

(** ** FeeTier.create *)

Lemma create_None_below_3 (version : Z) :
  version < 3 -> FeeTier.create None version = Ok FeeTier.TIER_3000.
Proof.
  intros H. unfold FeeTier.create.
  replace (version =? 3) with false by (symmetry; apply Z.eqb_neq; lia).
  simpl. rewrite andb_false_r. reflexivity.
Qed.

Lemma create_Some_below_3 (version v : Z) :
  version < 3 -> v <> 0 -> v <> 3000 ->
  FeeTier.create (Some v) version = Raise InvalidFeeTier.
Proof.
  intros H H0 H3. unfold FeeTier.create.
  rewrite andb_false_r. unfold FeeTier.or_TIER_3000.
  replace (v =? 0) with false by (symmetry; apply Z.eqb_neq; lia).
  replace (version <? 3) with true by (symmetry; apply Z.ltb_lt; lia).
  replace (v =? FeeTier.value FeeTier.TIER_3000) with false
    by (symmetry; apply Z.eqb_neq; simpl; lia).
  reflexivity.
Qed.

Lemma create_3000 (version : Z) :
  FeeTier.create (Some 3000) version = Ok FeeTier.TIER_3000.
Proof.
  unfold FeeTier.create. rewrite andb_false_r. simpl.
  rewrite andb_false_r. reflexivity.
Qed.

(** C7: on a version with a single fee tier (1 or 2) [FeeTier.create] maps
    a missing value to the tier 3000, accepts 3000 and rejects 500 with
    [InvalidFeeTier]; on version 3 a missing value is rejected with
    [ExplicitFeeTierRequred]. *)
Theorem create_single_tier_versions (version : Z) :
  version = 1 \/ version = 2 ->
  FeeTier.create None version = Ok FeeTier.TIER_3000 /\
  FeeTier.value FeeTier.TIER_3000 = 3000 /\
  FeeTier.create (Some 3000) version = Ok FeeTier.TIER_3000 /\
  FeeTier.create (Some 500) version = Raise InvalidFeeTier /\
  FeeTier.create None 3 = Raise ExplicitFeeTierRequred.
Proof.
  intros H. repeat split.
  - apply create_None_below_3. lia.
  - apply create_3000.
  - apply create_Some_below_3; lia.
Qed.

Lemma create_single_tier_versions_witness :
  FeeTier.create None 1 = Ok FeeTier.TIER_3000 /\
  FeeTier.value FeeTier.TIER_3000 = 3000 /\
  FeeTier.create (Some 3000) 1 = Ok FeeTier.TIER_3000 /\
  FeeTier.create (Some 500) 1 = Raise InvalidFeeTier /\
  FeeTier.create None 3 = Raise ExplicitFeeTierRequred.
Proof. apply (create_single_tier_versions 1). left. reflexivity. Defined.

(** C10: the explicit value 0 is taken for a missing one: on every version
    [FeeTier.create] answers the tier 3000 for it, so it raises neither
    [InvalidFeeTier] nor, on version 3, [ExplicitFeeTierRequred]. *)
Theorem create_zero_is_default :
  (forall version : Z,
      FeeTier.create (Some 0) version = Ok FeeTier.TIER_3000) /\
  FeeTier.value FeeTier.TIER_3000 = 3000 /\
  ~ raises (FeeTier.create (Some 0) 3) "ExplicitFeeTierRequred" /\
  (forall version : Z,
      ~ raises (FeeTier.create (Some 0) version) "InvalidFeeTier").
Proof.
  assert (H : forall version : Z,
             FeeTier.create (Some 0) version = Ok FeeTier.TIER_3000).
  { intros version. unfold FeeTier.create. rewrite andb_false_r. simpl.
    rewrite andb_false_r. reflexivity. }
  repeat split.
  - exact H.
  - rewrite H. apply Ok_not_raises.
  - intros version. rewrite H. apply Ok_not_raises.
Qed.

(** ** Same-token trades and prices *)

(** C6, counterexample: with the same token on both sides and the fee tier
    500 the V1 client's [make_trade] raises [InvalidFeeTier], and its
    [get_price_input] of ETH against ETH returns the exchange's answer. *)
Lemma same_token_not_always_InvalidTokenArgument :
  let e := Fixture.env Fixture.pools 1010 1010 1000 in
  BaseUniswap.make_trade e (Fixture.v1 e) "A" "A" (Py.Int 1) None (Some 500)
    None false = Raise InvalidFeeTier /\
  ~ raises (BaseUniswap.make_trade e (Fixture.v1 e) "A" "A" (Py.Int 1) None
              (Some 500) None false) "InvalidTokenArgument" /\
  BaseUniswap.get_price_input e (Fixture.v1 e) Fixture.ETH Fixture.ETH 1 None
    None = Ok 1000 /\
  ~ raises (BaseUniswap.get_price_input e (Fixture.v1 e) Fixture.ETH
              Fixture.ETH 1 None None) "InvalidTokenArgument".
Proof.
  cbv zeta.
  assert (H1 : BaseUniswap.make_trade
                 (Fixture.env Fixture.pools 1010 1010 1000)
                 (Fixture.v1 (Fixture.env Fixture.pools 1010 1010 1000))
                 "A" "A" (Py.Int 1) None (Some 500) None false
               = Raise InvalidFeeTier) by (vm_compute; reflexivity).
  assert (H2 : BaseUniswap.get_price_input
                 (Fixture.env Fixture.pools 1010 1010 1000)
                 (Fixture.v1 (Fixture.env Fixture.pools 1010 1010 1000))
                 Fixture.ETH Fixture.ETH 1 None None
               = Ok 1000) by (vm_compute; reflexivity).
  refine (conj H1 (conj _ (conj H2 _))).
  - rewrite H1. apply Raise_not_raises. discriminate.
  - rewrite H2. apply Ok_not_raises.
Qed.

(** C6, as the code has it: once the approval step has completed,
    [make_trade] (on an int quantity) and [make_trade_output] resolve the
    fee tier first and then raise [InvalidTokenArgument] on equal tokens,
    so a fee-tier error comes first; [get_price_input] and
    [get_price_output] resolve the fee tier and hand equal tokens to the
    version's price method without comparing them. *)
Theorem same_token_after_fee_tier (env : Env) (self : Uniswap)
  (token : AddressLike) (qty : Z) (recipient : option AddressLike)
  (fee : option Z) (slippage : option Py.float) (fee_on_transfer : bool)
  (route : option (list AddressLike)) :
  check_approval env token token = Ok tt ->
  BaseUniswap.make_trade env self token token (Py.Int qty) recipient fee
    slippage fee_on_transfer
  = (_ <- FeeTier.create fee (_version self) ;; Raise InvalidTokenArgument) /\
  BaseUniswap.make_trade_output env self token token qty recipient fee
    slippage
  = (_ <- FeeTier.create fee (_version self) ;; Raise InvalidTokenArgument) /\
  BaseUniswap.get_price_input env self token token qty fee route
  = (f <- FeeTier.create fee (_version self) ;;
     if addr_eqb token (ETH_ADDRESS env)
     then _get_eth_token_input_price self token qty f
     else _get_token_token_input_price self token token qty f route) /\
  BaseUniswap.get_price_output env self token token qty fee route
  = (f <- FeeTier.create fee (_version self) ;;
     if is_same_address env token (ETH_ADDRESS env)
     then _get_eth_token_output_price self token qty (Some f)
     else _get_token_token_output_price self token token qty (Some f) route).
Proof.
  intros Happ.
  assert (Heq : addr_eqb token token = true) by apply String.eqb_refl.
  refine (conj _ (conj _ (conj _ _))).
  - unfold BaseUniswap.make_trade. rewrite Happ. cbn [bind].
    destruct (FeeTier.create fee (_version self)); cbn [bind];
      [rewrite Heq |]; reflexivity.
  - unfold BaseUniswap.make_trade_output. rewrite Happ. cbn [bind].
    destruct (FeeTier.create fee (_version self)); cbn [bind];
      [rewrite Heq |]; reflexivity.
  - unfold BaseUniswap.get_price_input.
    destruct (FeeTier.create fee (_version self)); cbn [bind];
      [| reflexivity].
    destruct (addr_eqb token (ETH_ADDRESS env)); reflexivity.
  - unfold BaseUniswap.get_price_output.
    destruct (FeeTier.create fee (_version self)); cbn [bind];
      [| reflexivity].
    destruct (is_same_address env token (ETH_ADDRESS env)); reflexivity.
Qed.

Lemma same_token_after_fee_tier_witness :
  let e := Fixture.env Fixture.pools 1010 1010 1000 in
  BaseUniswap.make_trade e (Fixture.v1 e) "A" "A" (Py.Int 1) None None None
    false = Raise InvalidTokenArgument /\
  BaseUniswap.make_trade_output e (Fixture.v1 e) "A" "A" 1 None None None
  = Raise InvalidTokenArgument.
Proof.
  cbv zeta.
  destruct (same_token_after_fee_tier
              (Fixture.env Fixture.pools 1010 1010 1000)
              (Fixture.v1 (Fixture.env Fixture.pools 1010 1010 1000))
              "A" 1 None None None false None eq_refl)
    as [H1 [H2 _]].
  split; [exact H1 | exact H2].
Defined.

(** ** The balance check of exact-output trades *)

Lemma float_of_int_1 : Py.float_of_int 1 = Ok Py.one.
Proof. vm_compute. reflexivity. Qed.

(** [int((1 + 0.01) * 1000)] is 1010: the product is the float 1010.0. *)
Lemma amount_in_max_example :
  int_ ((1 + Py.lit_0_01) * 1000)%pyx = Ok 1010.
Proof. vm_compute. reflexivity. Qed.

(** The same product rounded up is still 1010. *)
Lemma amount_in_max_example_ceil :
  (x <- ((1 + Py.lit_0_01) * 1000)%pyx ;; Py.ceil x) = Ok 1010.
Proof. vm_compute. reflexivity. Qed.

(** C3, counterexample: with slippage 0.01 and a quoted cost of 1000 the
    wallet holding 1010 passes the balance check of both wrappers; nothing
    raises [InsufficientBalance 1010 1011]. *)
Lemma balance_1010_is_enough :
  let e := Fixture.env Fixture.pools 1010 1010 1000 in
  BaseUniswap._wrap_eth_to_token_swap_output e (Fixture.v1 e) "A" 5 None
    FeeTier.TIER_3000 Py.lit_0_01 = Ok "0xtx" /\
  BaseUniswap._wrap_eth_to_token_swap_output e (Fixture.v1 e) "A" 5 None
    FeeTier.TIER_3000 Py.lit_0_01 <> Raise (InsufficientBalance 1010 1011) /\
  BaseUniswap._wrap_token_to_eth_swap_output e (Fixture.v1 e) "A" 5 None
    FeeTier.TIER_3000 Py.lit_0_01 = Ok "0xtx" /\
  BaseUniswap._wrap_token_to_eth_swap_output e (Fixture.v1 e) "A" 5 None
    FeeTier.TIER_3000 Py.lit_0_01 <> Raise (InsufficientBalance 1010 1011).
Proof.
  cbv zeta.
  assert (H1 : BaseUniswap._wrap_eth_to_token_swap_output
                 (Fixture.env Fixture.pools 1010 1010 1000)
                 (Fixture.v1 (Fixture.env Fixture.pools 1010 1010 1000))
                 "A" 5 None FeeTier.TIER_3000 Py.lit_0_01 = Ok "0xtx")
    by (vm_compute; reflexivity).
  assert (H2 : BaseUniswap._wrap_token_to_eth_swap_output
                 (Fixture.env Fixture.pools 1010 1010 1000)
                 (Fixture.v1 (Fixture.env Fixture.pools 1010 1010 1000))
                 "A" 5 None FeeTier.TIER_3000 Py.lit_0_01 = Ok "0xtx")
    by (vm_compute; reflexivity).
  refine (conj H1 (conj _ (conj H2 _))).
  - rewrite H1. discriminate.
  - rewrite H2. discriminate.
Qed.

(** C3, as the code has it: the wrappers of an exact-output trade turn the
    quoted [cost] into [amount_in_max = int((1 + slippage) * cost)], the
    float product cut toward zero, and compare the balance with it: a
    smaller balance raises [InsufficientBalance balance amount_in_max], any
    other goes on to the version's swap method. For the slippage 0.01 and
    the cost 1000, [amount_in_max] is 1010. *)
Theorem exact_output_balance_check (env : Env) (self : Uniswap)
  (token : AddressLike) (qty : Z) (recipient : option AddressLike)
  (fee : FeeTier.t) (slippage : Py.float) (cost amount_in_max : Z) :
  addr_eqb token (ETH_ADDRESS env) = false ->
  int_ ((1 + slippage) * cost)%pyx = Ok amount_in_max ->
  (_get_eth_token_output_price self token qty (Some fee) = Ok cost ->
   BaseUniswap._wrap_eth_to_token_swap_output env self token qty recipient
     fee slippage
   = if amount_in_max >? BaseUniswap.get_eth_balance env self
     then Raise (InsufficientBalance (BaseUniswap.get_eth_balance env self)
                   amount_in_max)
     else _eth_to_token_swap_output self token qty recipient fee slippage) /\
  (forall input_balance : Z,
      BaseUniswap.get_token_balance env self token = Ok input_balance ->
      _get_token_eth_output_price self token qty (Some fee) = Ok cost ->
      BaseUniswap._wrap_token_to_eth_swap_output env self token qty recipient
        fee slippage
      = if amount_in_max >? input_balance
        then Raise (InsufficientBalance input_balance amount_in_max)
        else _token_to_eth_swap_output self token qty recipient fee
               slippage) /\
  int_ ((1 + Py.lit_0_01) * 1000)%pyx = Ok 1010.
Proof.
  intros Htok Hmax. refine (conj _ (conj _ amount_in_max_example)).
  - intros Hcost. unfold BaseUniswap._wrap_eth_to_token_swap_output.
    cbv zeta. rewrite Htok, Hcost. cbn [bind]. rewrite Hmax. reflexivity.
  - intros input_balance Hbal Hcost.
    unfold BaseUniswap._wrap_token_to_eth_swap_output.
    cbv zeta. rewrite Htok, Hbal. cbn [bind]. rewrite Hcost. cbn [bind].
    rewrite Hmax. reflexivity.
Qed.

Lemma exact_output_balance_check_witness :
  (let e := Fixture.env Fixture.pools 1009 1009 1000 in
   BaseUniswap._wrap_eth_to_token_swap_output e (Fixture.v1 e) "A" 5 None
     FeeTier.TIER_3000 Py.lit_0_01 = Raise (InsufficientBalance 1009 1010) /\
   BaseUniswap._wrap_token_to_eth_swap_output e (Fixture.v1 e) "A" 5 None
     FeeTier.TIER_3000 Py.lit_0_01 = Raise (InsufficientBalance 1009 1010)) /\
  (let e := Fixture.env Fixture.pools 1010 1010 1000 in
   BaseUniswap._wrap_eth_to_token_swap_output e (Fixture.v1 e) "A" 5 None
     FeeTier.TIER_3000 Py.lit_0_01
   = _eth_to_token_swap_output (Fixture.v1 e) "A" 5 None FeeTier.TIER_3000
       Py.lit_0_01).
Proof.
  cbv zeta. split.
  - destruct (exact_output_balance_check
                (Fixture.env Fixture.pools 1009 1009 1000)
                (Fixture.v1 (Fixture.env Fixture.pools 1009 1009 1000))
                "A" 5 None FeeTier.TIER_3000 Py.lit_0_01 1000 1010
                eq_refl eq_refl) as [H1 [H2 _]].
    split.
    + exact (H1 eq_refl).
    + exact (H2 1009 eq_refl eq_refl).
  - destruct (exact_output_balance_check
                (Fixture.env Fixture.pools 1010 1010 1000)
                (Fixture.v1 (Fixture.env Fixture.pools 1010 1010 1000))
                "A" 5 None FeeTier.TIER_3000 Py.lit_0_01 1000 1010
                eq_refl eq_refl) as [H1 _].
    exact (H1 eq_refl).
Defined.

(** ** The single-leg formulas on ints *)

Lemma add_float_1 (f : Py.float) :
  (Py.Float f + 1)%pyx = Ok (Py.Float (SFadd Py.prec Py.emax f Py.one)).
Proof.
  unfold op2, val. cbn [bind]. unfold Py.add, Py.arith.
  cbn [Py.to_float bind]. rewrite float_of_int_1. reflexivity.
Qed.

Lemma sub_float_1 (f : Py.float) :
  (Py.Float f - 1)%pyx = Ok (Py.Float (SFsub Py.prec Py.emax f Py.one)).
Proof.
  unfold op2, val. cbn [bind]. unfold Py.sub, Py.arith.
  cbn [Py.to_float bind]. rewrite float_of_int_1. reflexivity.
Qed.

(** On ints the numerator and the denominator are exact, their quotient is
    the float of the true division, and [1.0] is added to it. *)
Lemma inputAmount_of_ints (outputAmount inputReserve outputReserve : Z) :
  UniswapV1.inputAmount_of outputAmount inputReserve outputReserve
  = (q <- Py.int_true_divide (outputAmount * inputReserve * 1000)
            ((outputReserve - outputAmount) * 997) ;;
     Ok (Py.Float (SFadd Py.prec Py.emax q Py.one))).
Proof.
  unfold UniswapV1.inputAmount_of, op2, val. cbn [bind Py.mul Py.sub Py.arith].
  cbn [Py.truediv].
  destruct (Py.int_true_divide _ _) as [q | e]; cbn [bind]; [| reflexivity].
  exact (add_float_1 q).
Qed.

Lemma outputAmount_of_ints (inputAmount inputReserve outputReserve : Z) :
  UniswapV1.outputAmount_of inputAmount inputReserve outputReserve
  = (q <- Py.int_true_divide (inputAmount * outputReserve * 997)
            (inputReserve * 1000 + inputAmount * 997) ;;
     Ok (Py.Float q)).
Proof.
  unfold UniswapV1.outputAmount_of, op2, val.
  cbn [bind Py.mul Py.add Py.arith]. cbn [Py.truediv].
  destruct (Py.int_true_divide _ _) as [q | e]; reflexivity.
Qed.

Lemma int_true_divide_not_zero (a b : Z) :
  b <> 0 ->
  (exists f, Py.int_true_divide a b = Ok f) \/
  Py.int_true_divide a b = Raise OverflowError.
Proof.
  intros Hb. unfold Py.int_true_divide.
  replace (b =? 0) with false by (symmetry; apply Z.eqb_neq; exact Hb).
  destruct (SFdiv Py.prec Py.emax (Py.exact_of_Z a) (Py.exact_of_Z b));
    [left | right | left | left]; try reflexivity; eexists; reflexivity.
Qed.

Lemma int_true_divide_by_zero (a : Z) :
  Py.int_true_divide a 0 = Raise ZeroDivisionError.
Proof. reflexivity. Qed.

(** The body of [_token_to_eth_swap_output], its cost computation named. *)
Lemma _token_to_eth_swap_output_eq (env : Env) (input_token : AddressLike)
  (qty : Z) (recipient : option AddressLike) (fee : FeeTier.t)
  (slippage : Py.float) :
  UniswapV1._token_to_eth_swap_output env input_token qty recipient fee
    slippage
  = (inputAmount <-
       UniswapV1.inputAmount_of qty
         (UniswapV1.get_ex_token_balance env input_token)
         (UniswapV1.get_ex_eth_balance env input_token) ;;
     max_tokens <- int_ ((1 + slippage) * inputAmount)%pyx ;;
     ex <- UniswapV1.exchange env input_token ;;
     send env
       (UniswapV1.swap_or_transfer ex recipient "tokenToEthSwapOutput"
          "tokenToEthTransferOutput"
          [AInt qty; AInt max_tokens; AInt (time env + 10 * 60)]) 0).
Proof.
  unfold UniswapV1._token_to_eth_swap_output, UniswapV1.inputAmount_of.
  cbv zeta.
  destruct (_ * _ * _)%pyx as [numerator | e]; cbn [bind]; [| reflexivity].
  destruct (_ * _)%pyx as [denominator | e]; cbn [bind]; [| reflexivity].
  reflexivity.
Qed.

(** ** The exact-output quote *)

(** C1, counterexample: to buy 1 out of a reserve of 3 against an input
    reserve of 1 the code computes the float 1.5015045135406218, not the 1
    of the integer formula; against an input reserve of 77 the bound
    [max_tokens] it derives is 40 where the integer formula gives 39. *)
Lemma exact_output_quote_is_not_the_integer_formula :
  UniswapV1.inputAmount_of 1 1 3
  = Ok (Py.Float (S754_finite false 6762175167676662 (-52))) /\
  Spec.exact_output 1 1 3 = 1 /\
  UniswapV1.inputAmount_of 1 1 3 <> Ok (Py.Int (Spec.exact_output 1 1 3)) /\
  Py.compare (Py.Float (S754_finite false 6762175167676662 (-52)))
    (Py.Int (Spec.exact_output 1 1 3)) = Some Gt /\
  (x <- UniswapV1.inputAmount_of 1 77 3 ;; int_ ((1 + Py.lit_0_01) * x)%pyx)
  = Ok 40 /\
  int_ ((1 + Py.lit_0_01) * Spec.exact_output 1 77 3)%pyx = Ok 39.
Proof.
  assert (H : UniswapV1.inputAmount_of 1 1 3
              = Ok (Py.Float (S754_finite false 6762175167676662 (-52))))
    by (vm_compute; reflexivity).
  refine (conj H (conj _ (conj _ (conj _ (conj _ _)))));
    try (vm_compute; reflexivity).
  rewrite H. discriminate.
Qed.

(** C1, as the code has it: for [amountOut < reserveOut] the computed input
    is [numerator / denominator + 1] in true division: the numerator
    [amountOut * reserveIn * 1000] and the denominator
    [(reserveOut - amountOut) * 997] are exact ints, their quotient is the
    float of Python's int division, [1.0] is added in float arithmetic and
    nothing is cut: the result is a float (unless the quotient is too large
    for one) and the division by zero cannot happen. *)
Theorem exact_output_quote_true_division (amountOut reserveIn reserveOut : Z) :
  amountOut < reserveOut ->
  UniswapV1.inputAmount_of amountOut reserveIn reserveOut
  = (q <- Py.int_true_divide (amountOut * reserveIn * 1000)
            ((reserveOut - amountOut) * 997) ;;
     Ok (Py.Float (SFadd Py.prec Py.emax q Py.one))) /\
  ((exists f, UniswapV1.inputAmount_of amountOut reserveIn reserveOut
              = Ok (Py.Float f)) \/
   UniswapV1.inputAmount_of amountOut reserveIn reserveOut
   = Raise OverflowError).
Proof.
  intros Hlt. split; [apply inputAmount_of_ints |].
  rewrite inputAmount_of_ints.
  destruct (int_true_divide_not_zero (amountOut * reserveIn * 1000)
              ((reserveOut - amountOut) * 997)) as [[q Hq] | Ho]; [lia | |].
  - left. rewrite Hq. eexists. reflexivity.
  - right. rewrite Ho. reflexivity.
Qed.

Lemma exact_output_quote_true_division_witness :
  UniswapV1.inputAmount_of 1000 4000000 2000000
  = (q <- Py.int_true_divide (1000 * 4000000 * 1000)
            ((2000000 - 1000) * 997) ;;
     Ok (Py.Float (SFadd Py.prec Py.emax q Py.one))).
Proof.
  apply (exact_output_quote_true_division 1000 4000000 2000000).
  reflexivity.
Defined.

(** ** The exact-input quote *)

(** C2, counterexample: for the reserves 1000000 and 2000000 and the input
    1000 the code computes the float 1992.0139620798063, where the integer
    formula gives 1992. *)
Lemma exact_input_quote_is_not_the_integer_formula :
  UniswapV1.outputAmount_of 1000 1000000 2000000
  = Ok (Py.Float (S754_finite false 8760970055995548 (-42))) /\
  Spec.exact_input 1000 1000000 2000000 = 1992 /\
  UniswapV1.outputAmount_of 1000 1000000 2000000
  <> Ok (Py.Int (Spec.exact_input 1000 1000000 2000000)) /\
  Py.compare (Py.Float (S754_finite false 8760970055995548 (-42)))
    (Py.Int (Spec.exact_input 1000 1000000 2000000)) = Some Gt.
Proof.
  assert (H : UniswapV1.outputAmount_of 1000 1000000 2000000
              = Ok (Py.Float (S754_finite false 8760970055995548 (-42))))
    by (vm_compute; reflexivity).
  refine (conj H (conj _ (conj _ _))); try (vm_compute; reflexivity).
  rewrite H. discriminate.
Qed.

(** C2, as the code has it: the computed output is
    [numerator / denominator] in true division, the float of Python's int
    division of the exact ints [amountIn * reserveOut * 997] and
    [reserveIn * 1000 + amountIn * 997], not cut to an integer; for the
    reserves 1000000 and 2000000 and the input 1000 it is the float
    1992.0139620798063, whose integer part is 1992. *)
Theorem exact_input_quote_true_division :
  (forall amountIn reserveIn reserveOut : Z,
      UniswapV1.outputAmount_of amountIn reserveIn reserveOut
      = (q <- Py.int_true_divide (amountIn * reserveOut * 997)
                (reserveIn * 1000 + amountIn * 997) ;;
         Ok (Py.Float q))) /\
  UniswapV1.outputAmount_of 1000 1000000 2000000
  = Ok (Py.Float (S754_finite false 8760970055995548 (-42))) /\
  int_ (UniswapV1.outputAmount_of 1000 1000000 2000000)
  = Ok (Z.quot (1000 * 2000000 * 997) (1000000 * 1000 + 1000 * 997)).
Proof.
  refine (conj outputAmount_of_ints (conj _ _)); vm_compute; reflexivity.
Qed.

(** ** Exact output at or beyond the reserve *)

(** C5, counterexample: asking 500 out of a reserve of 500 raises
    [ZeroDivisionError]; asking 501 sends the transaction. *)
Lemma exact_output_of_whole_reserve :
  let e := Fixture.env
             {| Fixture.tokenA := 1000; Fixture.ethA := 500;
                Fixture.tokenB := 1000; Fixture.ethB := 500 |}
             1010 1010 1000 in
  UniswapV1._token_to_eth_swap_output e "A" 500 None FeeTier.TIER_3000
    Py.lit_0_01 = Raise ZeroDivisionError /\
  ~ raises (UniswapV1._token_to_eth_swap_output e "A" 500 None
              FeeTier.TIER_3000 Py.lit_0_01) "InsufficientLiquidity" /\
  UniswapV1._token_to_eth_swap_output e "A" 501 None FeeTier.TIER_3000
    Py.lit_0_01 = Ok "0xtx".
Proof.
  cbv zeta.
  refine (conj _ (conj _ _)); try (vm_compute; reflexivity).
  intros [e [_ Hn]]. exact (no_InsufficientLiquidity e Hn).
Qed.

(** C5, as the code has it: there is no liquidity check. A requested
    amount equal to the output reserve raises [ZeroDivisionError]; a larger
    one is not refused: the quotient over the negative denominator is
    computed (it is a float unless too large for one); and no path raises
    an exception called [InsufficientLiquidity]. *)
Theorem exact_output_no_liquidity_check (env : Env) (input_token : AddressLike)
  (qty : Z) (recipient : option AddressLike) (fee : FeeTier.t)
  (slippage : Py.float) :
  (UniswapV1.get_ex_eth_balance env input_token = qty ->
   UniswapV1._token_to_eth_swap_output env input_token qty recipient fee
     slippage = Raise ZeroDivisionError) /\
  (UniswapV1.get_ex_eth_balance env input_token < qty ->
   (exists f,
       UniswapV1.inputAmount_of qty
         (UniswapV1.get_ex_token_balance env input_token)
         (UniswapV1.get_ex_eth_balance env input_token) = Ok (Py.Float f)) \/
   UniswapV1.inputAmount_of qty
     (UniswapV1.get_ex_token_balance env input_token)
     (UniswapV1.get_ex_eth_balance env input_token) = Raise OverflowError) /\
  ~ raises (UniswapV1._token_to_eth_swap_output env input_token qty recipient
              fee slippage) "InsufficientLiquidity".
Proof.
  refine (conj _ (conj _ _)).
  - intros Heq. rewrite _token_to_eth_swap_output_eq, inputAmount_of_ints.
    rewrite Heq, Z.sub_diag, Z.mul_0_l, int_true_divide_by_zero.
    reflexivity.
  - intros Hlt. rewrite inputAmount_of_ints.
    destruct (int_true_divide_not_zero
                (qty * UniswapV1.get_ex_token_balance env input_token * 1000)
                ((UniswapV1.get_ex_eth_balance env input_token - qty) * 997))
      as [[q Hq] | Ho]; [lia | |].
    + left. rewrite Hq. eexists. reflexivity.
    + right. rewrite Ho. reflexivity.
  - intros [e [_ Hn]]. exact (no_InsufficientLiquidity e Hn).
Qed.

Lemma exact_output_no_liquidity_check_witness :
  UniswapV1._token_to_eth_swap_output
    (Fixture.env
       {| Fixture.tokenA := 1000; Fixture.ethA := 500;
          Fixture.tokenB := 1000; Fixture.ethB := 500 |} 1010 1010 1000)
    "A" 500 None FeeTier.TIER_3000 Py.lit_0_01 = Raise ZeroDivisionError.
Proof.
  exact (proj1 (exact_output_no_liquidity_check
                  (Fixture.env
                     {| Fixture.tokenA := 1000; Fixture.ethA := 500;
                        Fixture.tokenB := 1000; Fixture.ethB := 500 |}
                     1010 1010 1000)
                  "A" 500 None FeeTier.TIER_3000 Py.lit_0_01) eq_refl).
Defined.

(** ** The two-hop cost of an exact output *)

(** The body of [_calculate_max_input_token]: the bridge amount is the
    exact-output cost of [qty] against the pool of the output token; the
    quotient of the second leg is formed from it against the pool of the
    input token. *)
Lemma _calculate_max_input_token_eq (env : Env)
  (input_token : AddressLike) (qty : Z) (output_token : AddressLike) :
  UniswapV1._calculate_max_input_token env input_token qty output_token
  = (input_amount_b <-
       UniswapV1.inputAmount_of qty
         (UniswapV1.get_ex_eth_balance env output_token)
         (UniswapV1.get_ex_token_balance env output_token) ;;
     quotient_a <-
       (input_amount_b * UniswapV1.get_ex_token_balance env input_token * 1000
        / ((UniswapV1.get_ex_eth_balance env input_token - input_amount_b)
           * 997))%pyx ;;
     r1 <- int_ (quotient_a - 1)%pyx ;;
     r2 <- int_ (Py.lit_1_2 * input_amount_b)%pyx ;;
     Ok (r1, r2)).
Proof.
  unfold UniswapV1._calculate_max_input_token, UniswapV1.inputAmount_of.
  cbv zeta.
  destruct (_ * _ * _)%pyx as [numerator_b | e]; cbn [bind]; [| reflexivity].
  destruct (_ * _)%pyx as [denominator_b | e]; cbn [bind]; [| reflexivity].
  destruct (_ + _)%pyx as [input_amount_b | e]; cbn [bind]; [| reflexivity].
  rewrite (op2_eq Py.truediv).
  destruct (_ * _ * _)%pyx as [numerator_a | e]; cbn [bind]; [| reflexivity].
  destruct (_ * _)%pyx as [denominator_a | e]; cbn [bind]; [| reflexivity].
  unfold int_, op2, val. cbn [bind].
  destruct (Py.truediv numerator_a denominator_a) as [q | e]; cbn [bind];
    [| reflexivity].
  destruct (Py.sub q 1) as [input_amount_a | e]; reflexivity.
Qed.

(** C4, counterexample: against pools holding (1000000 A, 3000000 ETH) and
    (2000000 B, 4000000 ETH), buying 1000 B computes the bridge cost
    2008.02156494496; the cost reported for the bridging leg is 2409, and
    1.2 times the bridge cost rounded up is 2410. *)
Lemma bridge_cost_is_not_rounded_up :
  let e := Fixture.env Fixture.pools 1010 1010 1000 in
  UniswapV1._calculate_max_input_token e "A" 1000 "B" = Ok (670, 2409) /\
  UniswapV1.inputAmount_of 1000 4000000 2000000
  = Ok (Py.Float (S754_finite false 8831372237927775 (-42))) /\
  (x <- (Py.lit_1_2 * Py.Float (S754_finite false 8831372237927775 (-42)))%pyx ;;
   Py.ceil x) = Ok 2410.
Proof.
  cbv zeta. refine (conj _ (conj _ _)); vm_compute; reflexivity.
Qed.

(** C4, as the code has it: the cost reported for the bridging leg is
    [int(1.2 * computed)], the float product cut toward zero, where
    [computed] is the float the exact-output formula gives for the bridge
    amount; and the calculation returns whenever its pieces do. *)
Theorem bridge_cost_margin_is_truncated (env : Env)
  (input_token : AddressLike) (qty : Z) (output_token : AddressLike) :
  (forall r1 r2 : Z,
      UniswapV1._calculate_max_input_token env input_token qty output_token
      = Ok (r1, r2) ->
      exists computed : Py.num,
        UniswapV1.inputAmount_of qty
          (UniswapV1.get_ex_eth_balance env output_token)
          (UniswapV1.get_ex_token_balance env output_token) = Ok computed /\
        int_ (Py.lit_1_2 * computed)%pyx = Ok r2) /\
  (forall (computed quotient_a : Py.num) (r1 r2 : Z),
      UniswapV1.inputAmount_of qty
        (UniswapV1.get_ex_eth_balance env output_token)
        (UniswapV1.get_ex_token_balance env output_token) = Ok computed ->
      (computed * UniswapV1.get_ex_token_balance env input_token * 1000
       / ((UniswapV1.get_ex_eth_balance env input_token - computed) * 997))%pyx
      = Ok quotient_a ->
      int_ (quotient_a - 1)%pyx = Ok r1 ->
      int_ (Py.lit_1_2 * computed)%pyx = Ok r2 ->
      UniswapV1._calculate_max_input_token env input_token qty output_token
      = Ok (r1, r2)).
Proof.
  split.
  - intros r1 r2 H. rewrite _calculate_max_input_token_eq in H.
    apply bind_Ok_inv in H. destruct H as [computed [Hb H]].
    apply bind_Ok_inv in H. destruct H as [quotient_a [_ H]].
    apply bind_Ok_inv in H. destruct H as [r1' [_ H]].
    apply bind_Ok_inv in H. destruct H as [r2' [H2 H]].
    injection H as _ <-.
    exists computed. split; assumption.
  - intros computed quotient_a r1 r2 Hb Hq H1 H2.
    rewrite _calculate_max_input_token_eq, Hb. cbn [bind].
    rewrite Hq. cbn [bind]. rewrite H1. cbn [bind]. rewrite H2. reflexivity.
Qed.

Lemma bridge_cost_margin_is_truncated_witness :
  exists computed : Py.num,
    UniswapV1.inputAmount_of 1000 4000000 2000000 = Ok computed /\
    int_ (Py.lit_1_2 * computed)%pyx = Ok 2409.
Proof.
  exact (proj1 (bridge_cost_margin_is_truncated
                  (Fixture.env Fixture.pools 1010 1010 1000) "A" 1000 "B")
           670 2409 eq_refl).
Defined.

(** C9, counterexample: against the same pools the code prices 1000 B at
    670 A; two chained integer formulas give 672. *)
Lemma two_hop_cost_is_not_the_integer_chain :
  let e := Fixture.env Fixture.pools 1010 1010 1000 in
  UniswapV1._calculate_max_input_token e "A" 1000 "B" = Ok (670, 2409) /\
  Spec.two_hop_exact_output 1000 1000000 3000000 4000000 2000000 = 672 /\
  ~ (exists r2 : Z,
        UniswapV1._calculate_max_input_token e "A" 1000 "B"
        = Ok (Spec.two_hop_exact_output 1000 1000000 3000000 4000000 2000000,
              r2)).
Proof.
  cbv zeta.
  assert (H : UniswapV1._calculate_max_input_token
                (Fixture.env Fixture.pools 1010 1010 1000) "A" 1000 "B"
              = Ok (670, 2409)) by (vm_compute; reflexivity).
  refine (conj H (conj _ _)).
  - vm_compute. reflexivity.
  - intros [r2 H']. rewrite H in H'. revert H'. vm_compute. discriminate.
Qed.

(** C9: the second leg subtracts one. Against the pools (1000000 A,
    3000000 ETH) and (2000000 B, 4000000 ETH), buying 1000 B is priced at
    670 A by the code, where the two chained integer formulas give 672, and
    where the code's own single-leg formula (with its [+ 1], as in
    [_token_to_eth_swap_output] and in the first leg) applied to the bridge
    amount gives 672 as well. *)
Theorem two_hop_second_leg_subtracts_one :
  let e := Fixture.env Fixture.pools 1010 1010 1000 in
  UniswapV1._calculate_max_input_token e "A" 1000 "B" = Ok (670, 2409) /\
  Spec.two_hop_exact_output 1000 1000000 3000000 4000000 2000000 = 672 /\
  (bridge <- UniswapV1.inputAmount_of 1000 4000000 2000000 ;;
   int_ (UniswapV1.inputAmount_of bridge 1000000 3000000)) = Ok 672.
Proof.
  cbv zeta. refine (conj _ (conj _ _)); vm_compute; reflexivity.
Qed.

(** Whatever the pools, the reported cost is the integer part of the
    second-leg quotient minus one, where the single-leg formula on the same
    bridge amount is that quotient plus one. *)
Lemma two_hop_cost_pinned (env : Env)
  (input_token : AddressLike) (qty : Z) (output_token : AddressLike)
  (r1 r2 : Z) :
  UniswapV1._calculate_max_input_token env input_token qty output_token
  = Ok (r1, r2) ->
  exists bridge quotient_a : Py.num,
    UniswapV1.inputAmount_of qty
      (UniswapV1.get_ex_eth_balance env output_token)
      (UniswapV1.get_ex_token_balance env output_token) = Ok bridge /\
    (bridge * UniswapV1.get_ex_token_balance env input_token * 1000
     / ((UniswapV1.get_ex_eth_balance env input_token - bridge) * 997))%pyx
    = Ok quotient_a /\
    int_ (quotient_a - 1)%pyx = Ok r1.
Proof.
  intros H. rewrite _calculate_max_input_token_eq in H.
  apply bind_Ok_inv in H. destruct H as [bridge [Hb H]].
  apply bind_Ok_inv in H. destruct H as [quotient_a [Hq H]].
  apply bind_Ok_inv in H. destruct H as [r1' [H1 H]].
  apply bind_Ok_inv in H. destruct H as [r2' [_ H]].
  injection H as <- _.
  exists bridge, quotient_a. auto.
Qed.

(** ** Rounding: the quotient of two ints and the sum with [1.0] *)

Lemma pow2_pos (k : Z) : 0 <= k -> 0 < 2 ^ k.
Proof. intros. apply Z.pow_pos_nonneg; lia. Qed.

Lemma pow2_succ (k : Z) : 0 < k -> 2 ^ k = 2 * 2 ^ (k - 1).
Proof.
  intros H. replace k with (Z.succ (k - 1)) at 1 by lia.
  apply Z.pow_succ_r. lia.
Qed.

Lemma digits2_pos_bounds (p : positive) :
  2 ^ (Zpos (digits2_pos p) - 1) <= Zpos p < 2 ^ Zpos (digits2_pos p).
Proof.
  induction p as [p IH | p IH |]; simpl digits2_pos.
  - rewrite Pos2Z.inj_succ.
    replace (Z.succ (Zpos (digits2_pos p)) - 1) with (Zpos (digits2_pos p)) by lia.
    rewrite Z.pow_succ_r by lia.
    rewrite (pow2_succ (Zpos (digits2_pos p))) in * by lia. lia.
  - rewrite Pos2Z.inj_succ.
    replace (Z.succ (Zpos (digits2_pos p)) - 1) with (Zpos (digits2_pos p)) by lia.
    rewrite Z.pow_succ_r by lia.
    rewrite (pow2_succ (Zpos (digits2_pos p))) in * by lia. lia.
  - simpl. lia.
Qed.

Lemma Zdigits2_bounds (q : Z) :
  0 < q -> 2 ^ (Zdigits2 q - 1) <= q < 2 ^ Zdigits2 q.
Proof.
  destruct q as [| p | p]; try lia. intros _. apply digits2_pos_bounds.
Qed.

Lemma Zdigits2_pos (q : Z) : 0 < q -> 0 < Zdigits2 q.
Proof. destruct q; simpl; lia. Qed.

Lemma shr_1_arith (m : Z) (r s : bool) :
  0 <= m ->
  shr_1 {| shr_m := m; shr_r := r; shr_s := s |}
  = {| shr_m := m / 2; shr_r := Z.odd m; shr_s := r || s |}.
Proof.
  intros Hm. destruct m as [| p | p]; [reflexivity | | lia].
  destruct p as [p | p |]; simpl shr_1; f_equal.
  - apply Z.div_unique with 1; lia.
  - apply Z.div_unique with 0; lia.
Qed.

Lemma loc_rec_shr_1 (mrs : shr_record) (N D : Z) :
  Round.loc_rec mrs N D -> Round.loc_rec (shr_1 mrs) N (D * 2).
Proof.
  destruct mrs as [m r s]. unfold Round.loc_rec. cbn [shr_m shr_r shr_s].
  intros (HD & HN & Hm & Hr & Hs).
  assert (Hm0 : 0 <= m) by (subst m; apply Z.div_pos; lia).
  rewrite shr_1_arith by exact Hm0. cbn [shr_m shr_r shr_s].
  assert (Hrem : 0 <= N mod D < D) by (apply Z.mod_pos_bound; lia).
  assert (Hdiv : N / (D * 2) = m / 2)
    by (subst m; symmetry; apply Z.div_div; lia).
  assert (Hmod : N mod (D * 2) = N mod D + D * (m mod 2))
    by (subst m; apply Z.rem_mul_r; lia).
  assert (Hodd : m mod 2 = if Z.odd m then 1 else 0) by apply Zmod_odd.
  repeat split; try lia.
  - rewrite Hmod, Hodd. destruct (Z.odd m).
    + symmetry. apply Z.leb_le. lia.
    + symmetry. apply Z.leb_gt. lia.
  - rewrite Hmod, Hodd, Hr, Hs.
    destruct (Z.odd m);
      destruct (Z.leb_spec D (2 * (N mod D)));
      destruct (Z.eqb_spec (N mod D) 0);
      destruct (Z.eqb_spec (2 * (N mod D)) D); cbn [negb andb orb];
      repeat match goal with
             | |- context [?a =? ?b] => destruct (Z.eqb_spec a b)
             end; cbn [negb andb orb]; try reflexivity; lia.
Qed.

Lemma loc_rec_iter (p : positive) :
  forall (mrs : shr_record) (N D : Z),
    Round.loc_rec mrs N D -> Round.loc_rec (iter_pos shr_1 p mrs) N (D * 2 ^ Zpos p).
Proof.
  induction p as [p IH | p IH |]; intros mrs N D H; simpl iter_pos.
  - replace (D * 2 ^ Zpos p~1) with (D * 2 * 2 ^ Zpos p * 2 ^ Zpos p).
    + apply IH, IH, loc_rec_shr_1, H.
    + replace (Zpos p~1) with (Zpos p + Zpos p + 1) by lia.
      rewrite !Z.pow_add_r, Z.pow_1_r by lia. ring.
  - replace (D * 2 ^ Zpos p~0) with (D * 2 ^ Zpos p * 2 ^ Zpos p).
    + apply IH, IH, H.
    + replace (Zpos p~0) with (Zpos p + Zpos p) by lia.
      rewrite !Z.pow_add_r by lia. ring.
  - rewrite Z.pow_1_r. apply loc_rec_shr_1, H.
Qed.

Lemma shr_m_record_of_loc (m : Z) (l : location) :
  shr_m (shr_record_of_loc m l) = m.
Proof. destruct l as [| []]; reflexivity. Qed.

Lemma loc_rec_exact (m : Z) :
  0 <= m -> Round.loc_rec (shr_record_of_loc m loc_Exact) m 1.
Proof.
  intros Hm. unfold Round.loc_rec. cbn [shr_record_of_loc shr_m shr_r shr_s].
  rewrite Z.div_1_r, Z.mod_1_r. repeat split; try lia; reflexivity.
Qed.

Lemma pow2_le (a b : Z) : 0 <= a <= b -> 2 ^ a <= 2 ^ b.
Proof. intros. apply Z.pow_le_mono_r; lia. Qed.

Lemma digits_ge_53 (mx : Z) : 2 ^ 52 <= mx -> 53 <= Zdigits2 mx.
Proof.
  intros H.
  assert (H0 : 0 < mx) by (pose proof (pow2_pos 52); lia).
  pose proof (Zdigits2_bounds mx H0) as [_ Hu].
  pose proof (Zdigits2_pos mx H0).
  destruct (Z_lt_le_dec (Zdigits2 mx) 53) as [Hlt | Hge]; [| exact Hge].
  pose proof (pow2_le (Zdigits2 mx) 52). lia.
Qed.

Lemma div_pow2_range (mx g : Z) :
  53 <= g -> 2 ^ (g - 1) <= mx < 2 ^ g ->
  2 ^ 52 <= mx / 2 ^ (g - 53) < 2 ^ 53.
Proof.
  intros Hg [Hl Hu].
  assert (Hp : 0 < 2 ^ (g - 53)) by (apply pow2_pos; lia).
  assert (E1 : 2 ^ (g - 1) = 2 ^ 52 * 2 ^ (g - 53))
    by (rewrite <- Z.pow_add_r by lia; f_equal; lia).
  assert (E2 : 2 ^ g = 2 ^ 53 * 2 ^ (g - 53))
    by (rewrite <- Z.pow_add_r by lia; f_equal; lia).
  split.
  - apply Z.div_le_lower_bound; lia.
  - apply Z.div_lt_upper_bound; lia.
Qed.

Lemma shr_fexp_normal (mx ex : Z) (lx : location) (N D : Z) :
  Round.loc_rec (shr_record_of_loc mx lx) N D ->
  2 ^ 52 <= mx -> -1074 <= ex ->
  exists mrs : shr_record,
    shr_fexp Py.prec Py.emax mx ex lx = (mrs, ex + (Zdigits2 mx - 53)) /\
    Round.loc_rec mrs N (D * 2 ^ (Zdigits2 mx - 53)) /\
    2 ^ 52 <= shr_m mrs < 2 ^ 53.
Proof.
  intros Hrec Hmx Hex.
  pose proof (digits_ge_53 mx Hmx) as Hg.
  assert (H0 : 0 < mx) by (pose proof (pow2_pos 52); lia).
  pose proof (Zdigits2_bounds mx H0) as Hb.
  pose proof (div_pow2_range mx (Zdigits2 mx) Hg Hb) as Hrange.
  assert (Hmx' : mx = N / D).
  { destruct Hrec as (_ & _ & Hm & _). rewrite shr_m_record_of_loc in Hm.
    exact Hm. }
  unfold shr_fexp, shr, fexp, emin, Py.prec, Py.emax.
  replace (Z.max (Zdigits2 mx + ex - 53) (3 - 1024 - 53) - ex)
    with (Zdigits2 mx - 53) by lia.
  destruct (Zdigits2 mx - 53) as [| p | p] eqn:Hk; [| | lia].
  - exists (shr_record_of_loc mx lx).
    rewrite Z.pow_0_r, Z.mul_1_r, Z.add_0_r.
    rewrite Z.pow_0_r, Z.div_1_r in Hrange.
    rewrite shr_m_record_of_loc. auto.
  - exists (iter_pos shr_1 p (shr_record_of_loc mx lx)).
    pose proof (loc_rec_iter p _ _ _ Hrec) as Hit.
    refine (conj eq_refl (conj Hit _)).
    destruct Hit as (HD & _ & Hm & _). rewrite Hm.
    destruct Hrec as (HD0 & _).
    rewrite <- Z.div_div by (pose proof (pow2_pos (Zpos p)); lia).
    rewrite <- Hmx'. exact Hrange.
Qed.

Lemma round_nearest_even_spec (mrs : shr_record) (N D : Z) :
  Round.loc_rec mrs N D ->
  let m1 := round_nearest_even (shr_m mrs) (loc_of_shr_record mrs) in
  shr_m mrs <= m1 <= shr_m mrs + 1 /\ Z.abs (2 * (m1 * D - N)) <= D.
Proof.
  destruct mrs as [m r s]. unfold Round.loc_rec. cbn [shr_m shr_r shr_s].
  intros (HD & HN & Hm & Hr & Hs).
  assert (Hrem : 0 <= N mod D < D) by (apply Z.mod_pos_bound; lia).
  assert (HN' : N = D * m + N mod D) by (subst m; apply Z.div_mod; lia).
  destruct (Z.leb_spec D (2 * (N mod D))) as [Hge | Hlt];
    destruct (Z.eqb_spec (N mod D) 0) as [H0 | H0];
    destruct (Z.eqb_spec (2 * (N mod D)) D) as [HE | HE];
    cbn [negb andb] in Hs; subst r s;
    cbn [loc_of_shr_record round_nearest_even]; try lia; try nia;
    destruct (Z.even m); nia.
Qed.

Lemma digits_le (q k : Z) : 0 < q -> 0 <= k -> q < 2 ^ k -> Zdigits2 q <= k.
Proof.
  intros Hq Hk Hlt.
  pose proof (Zdigits2_bounds q Hq) as [Hl _].
  pose proof (Zdigits2_pos q Hq).
  destruct (Z_le_gt_dec (Zdigits2 q) k) as [Hle | Hgt]; [exact Hle |].
  pose proof (pow2_le k (Zdigits2 q - 1)). lia.
Qed.

Lemma binary_round_aux_normal (sx : bool) (mx ex : Z) (lx : location)
  (N D : Z) :
  Round.loc_rec (shr_record_of_loc mx lx) N D ->
  2 ^ 52 <= mx -> -1074 <= ex -> ex + Zdigits2 mx <= 1023 ->
  exists (m : positive) (e : Z),
    binary_round_aux Py.prec Py.emax sx mx ex lx = S754_finite sx m e /\
    2 ^ 52 <= Zpos m < 2 ^ 53 /\
    ex <= e <= ex + (Zdigits2 mx - 53) + 1 /\
    Z.abs (2 * (Zpos m * (D * 2 ^ (e - ex)) - N)) <= D * 2 ^ (e - ex) /\
    (2 ^ 54 - 1) * (D * 2 ^ (e - ex)) <= 4 * N.
Proof.
  intros Hrec Hmx Hex Hov.
  pose proof (digits_ge_53 mx Hmx) as Hg.
  destruct (shr_fexp_normal mx ex lx N D Hrec Hmx Hex)
    as (mrs & Hsf & Hrec1 & Hrange1).
  pose proof (round_nearest_even_spec mrs N _ Hrec1) as Hrne.
  cbv zeta in Hrne.
  set (k := Zdigits2 mx - 53) in *.
  set (m1 := round_nearest_even (shr_m mrs) (loc_of_shr_record mrs)) in *.
  destruct Hrne as [Hm1 Herr].
  assert (Hm1lo : 2 ^ 52 <= m1) by lia.
  assert (Hm1pos : 0 < m1) by (pose proof (pow2_pos 52); lia).
  assert (Hex1 : -1074 <= ex + k) by lia.
  destruct (shr_fexp_normal m1 (ex + k) loc_Exact m1 1
              (loc_rec_exact m1 (Z.lt_le_incl _ _ Hm1pos)) Hm1lo Hex1)
    as (mrs2 & Hsf2 & Hrec2 & Hrange2).
  pose proof (digits_ge_53 m1 Hm1lo) as Hg1.
  assert (Hg2 : Zdigits2 m1 <= 54).
  { apply digits_le; [exact Hm1pos | lia |].
    replace (2 ^ 54) with (2 * 2 ^ 53) by reflexivity. lia. }
  set (j := Zdigits2 m1 - 53) in *.
  assert (Hexact : m1 = shr_m mrs2 * 2 ^ j).
  { destruct Hrec2 as (_ & _ & Hm2 & _). rewrite Z.mul_1_l in Hm2.
    assert (Hj : j = 0 \/ j = 1) by lia.
    destruct Hj as [-> | Hj1].
    - rewrite Z.pow_0_r, Z.div_1_r in Hm2. rewrite Z.pow_0_r. lia.
    - rewrite Hj1 in *. rewrite Z.pow_1_r in *.
      assert (2 ^ 53 <= m1).
      { pose proof (Zdigits2_bounds m1 Hm1pos) as [Hl _].
        replace (Zdigits2 m1 - 1) with 53 in Hl by lia. exact Hl. }
      assert (Hm1eq : m1 = 2 ^ 53) by lia.
      rewrite Hm2, Hm1eq. reflexivity. }
  unfold binary_round_aux. rewrite Hsf. fold m1. rewrite Hsf2.
  destruct (shr_m mrs2) as [| m | m] eqn:Hm2;
    [pose proof (pow2_pos 52); lia | | pose proof (pow2_pos 52); lia].
  exists m, (ex + k + j).
  assert (Hle : (ex + k + j <=? Py.emax - Py.prec) = true)
    by (apply Z.leb_le; unfold Py.emax, Py.prec; lia).
  rewrite Hle.
  refine (conj eq_refl (conj Hrange2 (conj _ _))); [lia |].
  replace (ex + k + j - ex) with (k + j) by lia.
  rewrite Z.pow_add_r by lia.
  assert (Hpk : 0 < 2 ^ k) by (apply pow2_pos; lia).
  assert (HD : 0 < D) by (destruct Hrec as (HD & _); exact HD).
  assert (HDk : 0 < D * 2 ^ k) by nia.
  assert (Hfirst : shr_m mrs * (D * 2 ^ k) <= N).
  { destruct Hrec1 as (_ & HN & Hm & _). rewrite Hm, Z.mul_comm.
    apply Z.mul_div_le. exact HDk. }
  replace (Zpos m * (D * (2 ^ k * 2 ^ j))) with (m1 * (D * 2 ^ k))
    by (rewrite Hexact; ring).
  replace (D * (2 ^ k * 2 ^ j)) with (D * 2 ^ k * 2 ^ j) by ring.
  assert (Hj : j = 0 \/ j = 1) by lia.
  replace (2 ^ 54) with (4 * 2 ^ 52) by reflexivity.
  replace (2 ^ 53) with (2 * 2 ^ 52) in * by reflexivity.
  pose proof (pow2_pos 52) as Hp52.
  destruct Hj as [Hj | Hj]; rewrite Hj in *.
  - rewrite Z.pow_0_r in *. split; [lia |]. nia.
  - rewrite Z.pow_1_r in *.
    assert (Hm1eq : m1 = 2 * 2 ^ 52) by lia.
    rewrite Hm1eq in Herr. split; [lia |]. lia.
Qed.

Lemma new_location_rec (N d : Z) :
  0 <= N -> 0 < d ->
  Round.loc_rec (shr_record_of_loc (N / d) (new_location d (N mod d))) N d.
Proof.
  intros HN Hd.
  assert (Hrem : 0 <= N mod d < d) by (apply Z.mod_pos_bound; lia).
  unfold Round.loc_rec. rewrite shr_m_record_of_loc.
  refine (conj Hd (conj HN (conj eq_refl _))).
  unfold new_location, new_location_even, new_location_odd.
  destruct (Z.even d) eqn:Hev.
  - destruct (Z.eqb_spec (N mod d) 0) as [H0 | H0].
    + cbn [shr_record_of_loc shr_r shr_s]. rewrite H0. cbn [negb andb].
      split; [symmetry; apply Z.leb_gt; lia | reflexivity].
    + destruct (Z.compare_spec (2 * (N mod d)) d) as [HE | HL | HG];
        cbn [shr_record_of_loc shr_r shr_s]; cbn [negb andb].
      * rewrite HE, Z.leb_refl, Z.eqb_refl. split; reflexivity.
      * destruct (Z.leb_spec d (2 * (N mod d))); [lia |].
        destruct (Z.eqb_spec (2 * (N mod d)) d); [lia |].
        split; reflexivity.
      * destruct (Z.leb_spec d (2 * (N mod d))); [| lia].
        destruct (Z.eqb_spec (2 * (N mod d)) d); [lia |].
        split; reflexivity.
  - assert (Hodd : Z.odd d = true) by (rewrite <- Z.negb_even, Hev; reflexivity).
    apply Z.odd_spec in Hodd. destruct Hodd as [h Hh].
    destruct (Z.eqb_spec (N mod d) 0) as [H0 | H0].
    + cbn [shr_record_of_loc shr_r shr_s]. rewrite H0. cbn [negb andb].
      split; [symmetry; apply Z.leb_gt; lia | reflexivity].
    + destruct (Z.eqb_spec (2 * (N mod d)) d) as [HE | HE]; [lia |].
      destruct (Z.compare_spec (2 * (N mod d) + 1) d) as [HE' | HL | HG];
        cbn [shr_record_of_loc shr_r shr_s]; cbn [negb andb];
        destruct (Z.leb_spec d (2 * (N mod d))); try lia;
        split; reflexivity.
Qed.

Lemma div_eucl_div_mod (a b : Z) : Z.div_eucl a b = (a / b, a mod b).
Proof.
  unfold Z.div, Z.modulo. destruct (Z.div_eucl a b); reflexivity.
Qed.

(** The quotient of two positive integers, Round.rounded. *)
Lemma SFdiv_exact_ints (sx sy : bool) (n d : positive) :
  Zpos n < 2 ^ 1000 -> Zpos d < 2 ^ 1000 ->
  exists (m : positive) (e : Z),
    SFdiv Py.prec Py.emax (S754_finite sx n 0) (S754_finite sy d 0)
    = S754_finite (xorb sx sy) m e /\
    2 ^ 52 <= Zpos m < 2 ^ 53 /\
    -1074 <= e <= 948 /\
    Z.abs (2 * (Zpos m * 2 ^ (e + 1074) * Zpos d - Zpos n * 2 ^ 1074))
    <= 2 ^ (e + 1074) * Zpos d /\
    (2 ^ 54 - 1) * (2 ^ (e + 1074) * Zpos d) <= 4 * (Zpos n * 2 ^ 1074).
Proof.
  intros Hn Hd.
  pose proof (digits2_pos_bounds n) as [Hnl Hnu].
  pose proof (digits2_pos_bounds d) as [Hdl Hdu].
  set (d1 := Zpos (digits2_pos n)) in *.
  set (d2 := Zpos (digits2_pos d)) in *.
  assert (Hd1 : 0 < d1 <= 1000).
  { split; [reflexivity |]. apply (digits_le (Zpos n)); lia. }
  assert (Hd2 : 0 < d2 <= 1000).
  { split; [reflexivity |]. apply (digits_le (Zpos d)); lia. }
  cbn [SFdiv]. unfold SFdiv_core_binary.
  cbn [Zdigits2]. fold d1 d2.
  unfold fexp, emin, Py.prec, Py.emax.
  rewrite !Z.add_0_r, Z.sub_diag.
  set (e' := Z.min (Z.max (d1 - d2 - 53) (3 - 1024 - 53)) 0).
  assert (He' : e' = Z.min (d1 - d2 - 53) 0) by (unfold e'; lia).
  set (s := 0 - e').
  assert (Hs : 0 <= s) by (unfold s; lia).
  assert (Hm' : match s with
                | 0 => Zpos n
                | Zpos _ => Z.shiftl (Zpos n) s
                | Zneg _ => 0
                end = Zpos n * 2 ^ s).
  { destruct s as [| p | p] eqn:Es; [rewrite Z.pow_0_r; lia | | lia].
    apply Z.shiftl_mul_pow2. lia. }
  rewrite Hm', div_eucl_div_mod.
  set (N := Zpos n * 2 ^ s).
  assert (Hps : 0 < 2 ^ s) by (apply pow2_pos; exact Hs).
  assert (HN : 0 <= N) by (unfold N; nia).
  assert (Hq_lo : 2 ^ 52 <= N / Zpos d).
  { apply Z.div_le_lower_bound; [lia |].
    assert (E : 2 ^ (52 + d2) <= N).
    { unfold N.
      assert (Hle : 2 ^ (52 + d2) <= 2 ^ (d1 - 1) * 2 ^ s).
      { rewrite <- Z.pow_add_r by lia. apply pow2_le. unfold s. lia. }
      nia. }
    rewrite Z.pow_add_r in E by lia.
    pose proof (pow2_pos 52). nia. }
  assert (Hq_hi : N / Zpos d < 2 ^ (d1 + s - d2 + 1)).
  { apply Z.div_lt_upper_bound; [lia |].
    assert (E : N < 2 ^ (d1 + s)).
    { unfold N. rewrite Z.pow_add_r by lia. nia. }
    assert (E2 : 2 ^ (d1 + s) = 2 ^ (d2 - 1) * 2 ^ (d1 + s - d2 + 1)).
    { rewrite <- Z.pow_add_r by (unfold s; lia). f_equal. lia. }
    assert (0 < 2 ^ (d1 + s - d2 + 1)) by (apply pow2_pos; unfold s; lia).
    nia. }
  assert (Hq_pos : 0 < N / Zpos d) by (pose proof (pow2_pos 52); lia).
  assert (Hdig : Zdigits2 (N / Zpos d) <= d1 + s - d2 + 1).
  { apply digits_le; [exact Hq_pos | unfold s; lia | exact Hq_hi]. }
  destruct (binary_round_aux_normal (xorb sx sy) (N / Zpos d) e'
              (new_location (Zpos d) (N mod Zpos d)) N (Zpos d))
    as (m & e & Hres & Hm & He & Herr & Hlow).
  - apply new_location_rec; lia.
  - exact Hq_lo.
  - lia.
  - unfold s in Hdig. lia.
  - exists m, e. refine (conj Hres (conj Hm (conj _ _))).
    + unfold s in Hdig. pose proof (digits_ge_53 _ Hq_lo). lia.
    + split.
      2:{ assert (Hsc : 0 < 2 ^ (1074 + e')) by (apply pow2_pos; lia).
          assert (E1 : 2 ^ (e + 1074) = 2 ^ (e - e') * 2 ^ (1074 + e')).
          { rewrite <- Z.pow_add_r by lia. f_equal. lia. }
          assert (E2 : 2 ^ 1074 = 2 ^ s * 2 ^ (1074 + e')).
          { rewrite <- Z.pow_add_r by lia. f_equal. unfold s. lia. }
          rewrite E1, E2.
          replace ((2 ^ 54 - 1) * (2 ^ (e - e') * 2 ^ (1074 + e') * Zpos d))
            with ((2 ^ 54 - 1) * (Zpos d * 2 ^ (e - e')) * 2 ^ (1074 + e'))
            by ring.
          replace (4 * (Zpos n * (2 ^ s * 2 ^ (1074 + e'))))
            with (4 * N * 2 ^ (1074 + e')) by (unfold N; ring).
          apply Z.mul_le_mono_nonneg_r; [lia | exact Hlow]. }
      assert (Hsc : 0 < 2 ^ (1074 + e')) by (apply pow2_pos; lia).
      assert (E1 : 2 ^ (e + 1074) = 2 ^ (e - e') * 2 ^ (1074 + e')).
      { rewrite <- Z.pow_add_r by lia. f_equal. lia. }
      assert (E2 : 2 ^ 1074 = 2 ^ s * 2 ^ (1074 + e')).
      { rewrite <- Z.pow_add_r by lia. f_equal. unfold s. lia. }
      rewrite E1, E2.
      replace (Zpos m * (2 ^ (e - e') * 2 ^ (1074 + e')) * Zpos d
               - Zpos n * (2 ^ s * 2 ^ (1074 + e')))
        with ((Zpos m * (Zpos d * 2 ^ (e - e')) - N) * 2 ^ (1074 + e'))
        by (unfold N; ring).
      rewrite Z.mul_assoc, Z.abs_mul, (Z.abs_eq (2 ^ (1074 + e'))) by lia.
      replace (2 ^ (e - e') * 2 ^ (1074 + e') * Zpos d)
        with (Zpos d * 2 ^ (e - e') * 2 ^ (1074 + e')) by ring.
      apply Z.mul_le_mono_nonneg_r; [lia | exact Herr].
Qed.

Lemma int_true_divide_rounded (a b : Z) :
  0 < Z.abs a < 2 ^ 1000 -> 0 < Z.abs b < 2 ^ 1000 ->
  exists (m : positive) (e : Z),
    Py.int_true_divide a b
    = Ok (S754_finite (xorb (a <? 0) (b <? 0)) m e) /\
    Round.rounded (Z.abs a) (Z.abs b) m e /\ e <= 948.
Proof.
  intros Ha Hb. unfold Py.int_true_divide.
  replace (b =? 0) with false by (symmetry; apply Z.eqb_neq; lia).
  destruct a as [| n | n]; [simpl in Ha; lia | |];
    destruct b as [| d | d]; try (simpl in Hb; lia);
    cbn [Py.exact_of_Z Z.abs Z.ltb Z.compare xorb];
    match goal with
    | |- context [SFdiv _ _ (S754_finite ?sx n 0) (S754_finite ?sy d 0)] =>
        destruct (SFdiv_exact_ints sx sy n d) as (m & e & Hres & H);
        [simpl in Ha; lia | simpl in Hb; lia |];
        rewrite Hres; exists m, e; split; [reflexivity |];
        unfold Round.rounded; lia
    end.
Qed.

Lemma Pos_iter_xO (m d : positive) :
  Zpos (Pos.iter xO m d) = Zpos m * 2 ^ Zpos d.
Proof.
  induction d as [| d IH] using Pos.peano_ind.
  - simpl. lia.
  - rewrite Pos.iter_succ, Pos2Z.inj_succ, Z.pow_succ_r by lia.
    rewrite Pos2Z.inj_xO, IH. ring.
Qed.

Lemma shl_align_fst (mx : positive) (ex ex' : Z) :
  ex' <= ex -> Zpos (fst (shl_align mx ex ex')) = Zpos mx * 2 ^ (ex - ex').
Proof.
  intros H. unfold shl_align.
  destruct (ex' - ex) as [| p | p] eqn:E; cbn [fst].
  - replace (ex - ex') with 0 by lia. rewrite Z.pow_0_r. lia.
  - lia.
  - rewrite Pos_iter_xO. f_equal. f_equal. lia.
Qed.

Lemma SFadd_one_rounded (m : positive) (e : Z) :
  2 ^ 52 <= Zpos m < 2 ^ 53 -> -1074 <= e <= 948 ->
  exists (m' : positive) (e' : Z),
    SFadd Py.prec Py.emax (S754_finite false m e) Py.one
    = S754_finite false m' e' /\
    Round.rounded (Zpos m * 2 ^ (e + 1074) + 2 ^ 1074) (2 ^ 1074) m' e'.
Proof.
  intros Hm He. unfold Py.one. cbn [SFadd cond_Zopp].
  set (ez := Z.min e (-52)).
  rewrite !shl_align_fst by (unfold ez; lia).
  set (M := Zpos m * 2 ^ (e - ez) + 4503599627370496 * 2 ^ (-52 - ez)).
  assert (Hp1 : 0 < 2 ^ (e - ez)) by (apply pow2_pos; unfold ez; lia).
  assert (Hp2 : 0 < 2 ^ (-52 - ez)) by (apply pow2_pos; unfold ez; lia).
  change 4503599627370496 with (2 ^ 52) in *.
  pose proof (pow2_pos 52) as Hp52.
  replace (2 ^ 53) with (2 * 2 ^ 52) in Hm by reflexivity.
  assert (HMlo : 2 ^ 52 <= M) by (unfold M; nia).
  set (w := Z.max e (-52) - ez).
  assert (HMhi : M < 2 ^ (54 + w)).
  { assert (E1 : 2 ^ (53 + (e - ez)) <= 2 ^ (53 + w))
      by (apply pow2_le; unfold w, ez; lia).
    assert (E2 : 2 ^ (52 + (-52 - ez)) <= 2 ^ (53 + w))
      by (apply pow2_le; unfold w, ez; lia).
    rewrite Z.pow_add_r in E1, E2 by (unfold ez; lia).
    replace (2 ^ 53) with (2 * 2 ^ 52) in E1 by reflexivity.
    replace (54 + w) with (Z.succ (53 + w)) by lia.
    rewrite Z.pow_succ_r by (unfold w, ez; lia).
    unfold M. nia. }
  assert (HMdef : M = Zpos m * 2 ^ (e - ez) + 2 ^ 52 * 2 ^ (-52 - ez))
    by reflexivity.
  clearbody M.
  destruct M as [| pM | pM]; [lia | | lia].
  assert (Hdig : 53 <= Zpos (digits2_pos pM) <= 54 + w).
  { split.
    - apply (digits_ge_53 (Zpos pM)). exact HMlo.
    - apply (digits_le (Zpos pM)); [lia | unfold w, ez; lia | exact HMhi]. }
  cbn [binary_normalize]. unfold binary_round.
  assert (Hal : shl_align pM ez
                  (fexp Py.prec Py.emax (Zpos (digits2_pos pM) + ez))
                = (pM, ez)).
  { unfold shl_align, fexp, emin, Py.prec, Py.emax.
    destruct (Z.max (Zpos (digits2_pos pM) + ez - 53) (3 - 1024 - 53) - ez)
      as [| p | p] eqn:E; try reflexivity.
    unfold ez in E. lia. }
  rewrite Hal.
  destruct (binary_round_aux_normal false (Zpos pM) ez loc_Exact (Zpos pM) 1)
    as (m' & e' & Hres & Hm' & He' & Herr & Hlow).
  - apply loc_rec_exact. lia.
  - exact HMlo.
  - unfold ez. lia.
  - cbn [Zdigits2]. unfold w, ez in Hdig. unfold ez. lia.
  - exists m', e'. split; [exact Hres |].
    cbn [Zdigits2] in He'.
    assert (He'' : -1074 <= e' <= 971) by (unfold w, ez in *; lia).
    refine (conj _ (conj He'' _)).
    { replace (2 ^ 53) with (2 * 2 ^ 52) by reflexivity. lia. }
    set (S := 2 ^ (ez + 1074)).
    assert (HS : 0 < S) by (apply pow2_pos; unfold ez; lia).
    assert (EP : 2 ^ (e' + 1074) = 2 ^ (e' - ez) * S)
      by (unfold S; rewrite <- Z.pow_add_r by lia; f_equal; lia).
    assert (EN : Zpos m * 2 ^ (e + 1074) + 2 ^ 1074 = Zpos pM * S).
    { rewrite HMdef. unfold S.
      replace (2 ^ (e + 1074)) with (2 ^ (e - ez) * 2 ^ (ez + 1074))
        by (rewrite <- Z.pow_add_r by (unfold ez; lia); f_equal; lia).
      replace (2 ^ 1074) with (2 ^ 52 * 2 ^ (-52 - ez) * 2 ^ (ez + 1074)).
      - ring.
      - rewrite <- !Z.pow_add_r by (unfold ez; lia). f_equal. lia. }
    pose proof (pow2_pos 1074) as HQ.
    rewrite EN, EP. rewrite !Z.mul_1_l in *.
    split.
    + replace (2 * (Zpos m' * (2 ^ (e' - ez) * S) * 2 ^ 1074
                    - Zpos pM * S * 2 ^ 1074))
        with (2 * (Zpos m' * 2 ^ (e' - ez) - Zpos pM) * (S * 2 ^ 1074))
        by ring.
      rewrite Z.abs_mul, (Z.abs_eq (S * 2 ^ 1074)) by nia.
      replace (2 ^ (e' - ez) * S * 2 ^ 1074)
        with (2 ^ (e' - ez) * (S * 2 ^ 1074)) by ring.
      apply Z.mul_le_mono_nonneg_r; [nia | exact Herr].
    + replace ((2 ^ 54 - 1) * (2 ^ (e' - ez) * S * 2 ^ 1074))
        with ((2 ^ 54 - 1) * 2 ^ (e' - ez) * (S * 2 ^ 1074)) by ring.
      replace (4 * (Zpos pM * S * 2 ^ 1074))
        with (4 * Zpos pM * (S * 2 ^ 1074)) by ring.
      apply Z.mul_le_mono_nonneg_r; [nia | exact Hlow].
Qed.

Lemma pow2_lt_exp (a b : Z) : 0 <= a -> 0 <= b -> 2 ^ a < 2 ^ b -> a < b.
Proof. intros Ha Hb H. apply (Z.pow_lt_mono_r_iff 2); lia. Qed.

Lemma trunc_finite_neg (m : positive) (e : Z) :
  e <= 0 -> Py.trunc_finite false m e = Zpos m / 2 ^ (- e).
Proof.
  intros He. unfold Py.trunc_finite.
  destruct e as [| p | p]; [simpl; rewrite Z.div_1_r; reflexivity | lia |].
  reflexivity.
Qed.

Lemma rounded_exp_nonpos (n d : Z) (m : positive) (e : Z) :
  0 < n < 2 ^ 53 -> 0 < d -> Round.rounded n d m e -> e <= 0.
Proof.
  intros Hn Hd (Hm & He & HA & HB).
  pose proof (pow2_pos 1074 ltac:(lia)) as HQ.
  replace (2 ^ 54) with (4 * 2 ^ 52) in HB by reflexivity.
  replace (2 ^ 53) with (2 * 2 ^ 52) in * by reflexivity.
  pose proof (pow2_pos 52 ltac:(lia)) as Hp52.
  destruct (Z_le_gt_dec e 0) as [Hle | Hgt]; [exact Hle | exfalso].
  assert (E : 2 ^ (e + 1074) = 2 ^ 1074 * 2 ^ e)
    by (rewrite <- Z.pow_add_r by lia; f_equal; lia).
  assert (Hpe : 2 <= 2 ^ e) by (pose proof (pow2_le 1 e); simpl in *; lia).
  rewrite E in HB. nia.
Qed.

Lemma rounded_trunc (n d : Z) (m : positive) (e : Z) :
  0 < n < 2 ^ 53 -> 0 < d -> Round.rounded n d m e ->
  Py.trunc_finite false m e = n / d.
Proof.
  intros Hn Hd Hq.
  pose proof (rounded_exp_nonpos n d m e Hn Hd Hq) as He0.
  destruct Hq as (Hm & He & HA & HB).
  change (2 ^ 52) with 4503599627370496 in *.
  change (2 ^ 53) with 9007199254740992 in *.
  change (2 ^ 54) with 18014398509481984 in *.
  assert (HQ : 0 < 2 ^ 1074) by (apply pow2_pos; lia).
  assert (HP : 0 < 2 ^ (e + 1074)) by (apply pow2_pos; lia).
  assert (HT : 0 < 2 ^ (- e)) by (apply pow2_pos; lia).
  assert (EQ : 2 ^ 1074 = 2 ^ (e + 1074) * 2 ^ (- e))
    by (rewrite <- Z.pow_add_r by lia; f_equal; lia).
  rewrite trunc_finite_neg by exact He0.
  set (P := 2 ^ (e + 1074)) in *.
  set (T := 2 ^ (- e)) in *.
  assert (HA' : Z.abs (2 * (Zpos m * d - n * T)) <= d).
  { rewrite EQ in HA.
    replace (2 * (Zpos m * P * d - n * (P * T)))
      with (2 * (Zpos m * d - n * T) * P) in HA by ring.
    rewrite Z.abs_mul, (Z.abs_eq P) in HA by lia.
    apply (Z.mul_le_mono_pos_r _ _ P HP).
    rewrite (Z.mul_comm d P). exact HA. }
  assert (HB' : 18014398509481983 * d <= 4 * (n * T)).
  { rewrite EQ in HB.
    apply (Z.mul_le_mono_pos_r _ _ P HP).
    replace (18014398509481983 * d * P)
      with ((18014398509481984 - 1) * (P * d)) by ring.
    replace (4 * (n * T) * P) with (4 * (n * (P * T))) by ring.
    exact HB. }
  clear HA HB EQ.
  pose proof (Z.div_mod n d ltac:(lia)) as Hdm.
  pose proof (Z.mod_pos_bound n d Hd) as Hr.
  set (k := n / d) in *. set (r := n mod d) in *.
  assert (Hk : 0 <= k) by (apply Z.div_pos; lia).
  assert (EnT : n * T = T * k * d + r * T)
    by (rewrite Hdm at 1; ring).
  assert (HrT : 0 <= r * T) by (apply Z.mul_nonneg_nonneg; lia).
  symmetry.
  apply (Z.div_unique_pos _ _ _ (Zpos m - T * k)); [| lia].
  split.
  - destruct (Z_le_gt_dec (T * k) (Zpos m)) as [Hle | Hgt]; [lia | exfalso].
    assert (H1 : (Zpos m + 1) * d <= T * k * d)
      by (apply Z.mul_le_mono_nonneg_r; lia).
    replace ((Zpos m + 1) * d) with (Zpos m * d + d) in H1 by ring.
    set (md := Zpos m * d) in *. set (nT := n * T) in *.
    set (Tkd := T * k * d) in *. lia.
  - destruct (Z_lt_le_dec (Zpos m) (T * (k + 1))) as [Hlt | Hge];
      [lia | exfalso].
    assert (H1 : T * (k + 1) * d <= Zpos m * d)
      by (apply Z.mul_le_mono_nonneg_r; lia).
    replace (T * (k + 1) * d) with (T * k * d + T * d) in H1 by ring.
    assert (H2 : r * T <= (d - 1) * T)
      by (apply Z.mul_le_mono_nonneg_r; lia).
    replace ((d - 1) * T) with (T * d - T) in H2 by ring.
    assert (H3 : n * (2 * T) <= n * d).
    { apply Z.mul_le_mono_nonneg_l; [lia |].
      set (md := Zpos m * d) in *. set (nT := n * T) in *.
      set (Tkd := T * k * d) in *. set (Td := T * d) in *.
      set (rT := r * T) in *. lia. }
    assert (H4 : n * d <= 9007199254740991 * d)
      by (apply Z.mul_le_mono_nonneg_r; lia).
    replace (n * (2 * T)) with (2 * (n * T)) in H3 by ring.
    set (nT := n * T) in *. set (nd := n * d) in *. lia.
Qed.

Lemma rounded_sum_trunc (n d : Z) (m : positive) (e : Z)
  (m' : positive) (e' : Z) :
  0 < n < 2 ^ 51 -> 0 < d < 2 ^ 51 ->
  Round.rounded n d m e ->
  Round.rounded (Zpos m * 2 ^ (e + 1074) + 2 ^ 1074) (2 ^ 1074) m' e' ->
  Py.trunc_finite false m' e' = n / d + 1.
Proof.
  intros Hn Hd Hq Hs.
  assert (Hn53 : 0 < n < 2 ^ 53).
  { change (2 ^ 53) with 9007199254740992.
    change (2 ^ 51) with 2251799813685248 in Hn. lia. }
  assert (Hd0 : 0 < d) by lia.
  pose proof (rounded_trunc n d m e Hn53 Hd0 Hq) as Htr.
  pose proof (rounded_exp_nonpos n d m e Hn53 Hd0 Hq) as He0.
  rewrite trunc_finite_neg in Htr by exact He0.
  destruct Hq as (Hm & He & HA & HB).
  destruct Hs as (Hm' & He' & HA' & HB').
  change (2 ^ 51) with 2251799813685248 in *.
  change (2 ^ 52) with 4503599627370496 in *.
  change (2 ^ 53) with 9007199254740992 in *.
  change (2 ^ 54) with 18014398509481984 in *.
  assert (HQ : 0 < 2 ^ 1074) by (apply pow2_pos; lia).
  assert (HP : 0 < 2 ^ (e + 1074)) by (apply pow2_pos; lia).
  assert (HP' : 0 < 2 ^ (e' + 1074)) by (apply pow2_pos; lia).
  assert (HT : 0 < 2 ^ (- e)) by (apply pow2_pos; lia).
  assert (EQ : 2 ^ 1074 = 2 ^ (e + 1074) * 2 ^ (- e))
    by (rewrite <- Z.pow_add_r by lia; f_equal; lia).
  set (Q := 2 ^ 1074) in *.
  set (P := 2 ^ (e + 1074)) in *.
  set (P' := 2 ^ (e' + 1074)) in *.
  set (T := 2 ^ (- e)) in *.
  pose proof (Z.div_mod n d ltac:(lia)) as Hdm.
  pose proof (Z.mod_pos_bound n d Hd0) as Hr.
  set (k := n / d) in *. set (r := n mod d) in *.
  assert (Hk : 0 <= k) by (apply Z.div_pos; lia).
  (* the quotient *)
  assert (HmT : T * k <= Zpos m).
  { rewrite <- Htr. apply Z.mul_div_le. exact HT. }
  assert (HmP : k * Q <= Zpos m * P).
  { rewrite EQ. replace (k * (P * T)) with (T * k * P) by ring.
    apply Z.mul_le_mono_nonneg_r; lia. }
  (* the sum, its factor Q removed *)
  assert (HA2 : Z.abs (2 * (Zpos m' * P' - (Zpos m * P + Q))) <= P').
  { replace (2 * (Zpos m' * P' * Q - (Zpos m * P + Q) * Q))
      with (2 * (Zpos m' * P' - (Zpos m * P + Q)) * Q) in HA' by ring.
    rewrite Z.abs_mul, (Z.abs_eq Q) in HA' by lia.
    apply (Z.mul_le_mono_pos_r _ _ Q HQ). exact HA'. }
  assert (HB2 : 18014398509481983 * P' <= 4 * (Zpos m * P + Q)).
  { apply (Z.mul_le_mono_pos_r _ _ Q HQ).
    replace (18014398509481983 * P' * Q)
      with ((18014398509481984 - 1) * (P' * Q)) by ring.
    replace (4 * (Zpos m * P + Q) * Q)
      with (4 * ((Zpos m * P + Q) * Q)) by ring.
    exact HB'. }
  clear HA' HB'.
  (* products as atoms *)
  assert (EdmP : Zpos m * P * d = d * (Zpos m * P)) by ring.
  rewrite EdmP in HA.
  replace (18014398509481984 - 1) with 18014398509481983 in HB by lia.
  replace (P * d) with (d * P) in * by ring.
  assert (HnQ : n * Q <= 2251799813685247 * Q)
    by (apply Z.mul_le_mono_nonneg_r; lia).
  assert (HdQ : d * Q <= 2251799813685247 * Q)
    by (apply Z.mul_le_mono_nonneg_r; lia).
  assert (HdQ1 : Q <= d * Q).
  { replace Q with (1 * Q) at 1 by ring.
    apply Z.mul_le_mono_nonneg_r; lia. }
  assert (HdP1 : P' <= d * P').
  { replace P' with (1 * P') at 1 by ring.
    apply Z.mul_le_mono_nonneg_r; lia. }
  assert (HdB2 : 18014398509481983 * (d * P')
                 <= 4 * (d * (Zpos m * P)) + 4 * (d * Q)).
  { replace (18014398509481983 * (d * P'))
      with (d * (18014398509481983 * P')) by ring.
    replace (4 * (d * (Zpos m * P)) + 4 * (d * Q))
      with (d * (4 * (Zpos m * P + Q))) by ring.
    apply Z.mul_le_mono_nonneg_l; lia. }
  assert (HrQ : r * Q <= d * Q - Q).
  { replace (d * Q - Q) with ((d - 1) * Q) by ring.
    apply Z.mul_le_mono_nonneg_r; lia. }
  assert (HkQ : d * (k * Q) = n * Q - r * Q).
  { replace (n * Q) with ((d * k + r) * Q) by (rewrite <- Hdm; reflexivity).
    ring. }
  assert (HdmPlo : d * (k * Q) <= d * (Zpos m * P))
    by (apply Z.mul_le_mono_nonneg_l; lia).
  set (mP := Zpos m * P) in *.
  set (dmP := d * mP) in *.
  set (nQ := n * Q) in *.
  set (dQ := d * Q) in *.
  set (rQ := r * Q) in *.
  set (kQ := k * Q) in *.
  set (dkQ := d * kQ) in *.
  set (dP := d * P) in *.
  set (dP' := d * P') in *.
  set (m'P' := Zpos m' * P') in *.
  assert (HdP : 2 * dP < Q) by lia.
  assert (HdP' : dP' < Q) by lia.
  assert (He'0 : e' < 0).
  { assert (HPQ : P' < Q) by lia.
    assert (e' + 1074 < 1074); [| lia].
    apply pow2_lt_exp; lia. }
  rewrite trunc_finite_neg by lia.
  assert (HT' : 0 < 2 ^ (- e')) by (apply pow2_pos; lia).
  assert (EQ' : Q = P' * 2 ^ (- e'))
    by (unfold Q, P'; rewrite <- Z.pow_add_r by lia; f_equal; lia).
  set (T' := 2 ^ (- e')) in *.
  symmetry.
  apply (Z.div_unique_pos _ _ _ (Zpos m' - T' * (k + 1))); [| lia].
  split.
  - destruct (Z_le_gt_dec (T' * (k + 1)) (Zpos m')) as [Hle | Hgt];
      [lia | exfalso].
    assert (H1 : (Zpos m' + 1) * P' <= T' * (k + 1) * P')
      by (apply Z.mul_le_mono_nonneg_r; lia).
    replace (T' * (k + 1) * P') with (k * (P' * T') + P' * T') in H1 by ring.
    rewrite <- EQ' in H1.
    replace ((Zpos m' + 1) * P') with (m'P' + P') in H1
      by (unfold m'P'; ring).
    fold kQ in H1. lia.
  - destruct (Z_lt_le_dec (Zpos m') (T' * (k + 2))) as [Hlt | Hge];
      [lia | exfalso].
    assert (H1 : T' * (k + 2) * P' <= Zpos m' * P')
      by (apply Z.mul_le_mono_nonneg_r; lia).
    replace (T' * (k + 2) * P') with (k * (P' * T') + 2 * (P' * T')) in H1
      by ring.
    rewrite <- EQ' in H1. fold kQ m'P' in H1.
    assert (H2 : 2 * (kQ + Q - mP) <= P') by lia.
    assert (H3 : d * (2 * (kQ + Q - mP)) <= d * P')
      by (apply Z.mul_le_mono_nonneg_l; lia).
    replace (d * (2 * (kQ + Q - mP))) with (2 * (dkQ + dQ - dmP)) in H3
      by (unfold dkQ, dQ, dmP; ring).
    fold dP' in H3. lia.
Qed.

(** ** The integer part of the two quotes *)

Lemma pow2_51_1000 : 2 ^ 51 < 2 ^ 1000.
Proof. apply Z.pow_lt_mono_r; lia. Qed.

(** The integer part of the exact-input quote is the integer formula, as
    long as the numerator and the denominator stay below [2 ^ 51]. *)
Lemma outputAmount_of_int_part (amountIn reserveIn reserveOut : Z) :
  0 < amountIn -> 0 < reserveIn -> 0 < reserveOut ->
  amountIn * reserveOut * 997 < 2 ^ 51 ->
  reserveIn * 1000 + amountIn * 997 < 2 ^ 51 ->
  int_ (UniswapV1.outputAmount_of amountIn reserveIn reserveOut)
  = Ok (Spec.exact_input amountIn reserveIn reserveOut).
Proof.
  intros Ha Hi Ho Hn Hd.
  assert (Hn0 : 0 < amountIn * reserveOut * 997) by nia.
  assert (Hd0 : 0 < reserveIn * 1000 + amountIn * 997) by lia.
  pose proof pow2_51_1000 as Hbig.
  rewrite outputAmount_of_ints.
  destruct (int_true_divide_rounded (amountIn * reserveOut * 997)
              (reserveIn * 1000 + amountIn * 997))
    as (m & e & Hres & Hr & _); [rewrite Z.abs_eq; lia .. |].
  rewrite !Z.abs_eq in Hr by lia.
  replace (amountIn * reserveOut * 997 <? 0) with false in Hres
    by (symmetry; apply Z.ltb_ge; lia).
  replace (reserveIn * 1000 + amountIn * 997 <? 0) with false in Hres
    by (symmetry; apply Z.ltb_ge; lia).
  rewrite Hres. unfold int_. cbn [bind Py.int xorb]. f_equal.
  unfold Spec.exact_input. cbv zeta.
  rewrite Z.quot_div_nonneg by lia.
  apply rounded_trunc; try assumption.
  change (2 ^ 53) with 9007199254740992.
  change (2 ^ 51) with 2251799813685248 in Hn. lia.
Qed.

(** The integer part of the exact-output quote is the integer formula, under
    the same bound. *)
Lemma inputAmount_of_int_part (amountOut reserveIn reserveOut : Z) :
  0 <= amountOut < reserveOut -> 0 < reserveIn ->
  amountOut * reserveIn * 1000 < 2 ^ 51 ->
  (reserveOut - amountOut) * 997 < 2 ^ 51 ->
  exists r : Py.num,
    UniswapV1.inputAmount_of amountOut reserveIn reserveOut = Ok r /\
    Py.int r = Ok (Spec.exact_output amountOut reserveIn reserveOut).
Proof.
  intros Ha Hi Hn Hd.
  assert (Hd0 : 0 < (reserveOut - amountOut) * 997) by lia.
  pose proof pow2_51_1000 as Hbig.
  rewrite inputAmount_of_ints.
  unfold Spec.exact_output. cbv zeta.
  destruct (Z.eq_dec amountOut 0) as [-> | Hne].
  - rewrite !Z.mul_0_l. unfold Py.int_true_divide.
    replace ((reserveOut - 0) * 997 =? 0) with false
      by (symmetry; apply Z.eqb_neq; lia).
    destruct ((reserveOut - 0) * 997) as [| p | p] eqn:E; try lia.
    cbn [Py.exact_of_Z SFdiv xorb bind].
    exists (Py.Float Py.one). split; reflexivity.
  - assert (Hn0 : 0 < amountOut * reserveIn * 1000) by nia.
    destruct (int_true_divide_rounded (amountOut * reserveIn * 1000)
                ((reserveOut - amountOut) * 997))
      as (m & e & Hres & Hr & He); [rewrite Z.abs_eq; lia .. |].
    rewrite !Z.abs_eq in Hr by lia.
    replace (amountOut * reserveIn * 1000 <? 0) with false in Hres
      by (symmetry; apply Z.ltb_ge; lia).
    replace ((reserveOut - amountOut) * 997 <? 0) with false in Hres
      by (symmetry; apply Z.ltb_ge; lia).
    cbn [xorb] in Hres. rewrite Hres. cbn [bind].
    destruct (SFadd_one_rounded m e) as (m' & e' & Hsum & Hr').
    + destruct Hr as (Hm & _). exact Hm.
    + destruct Hr as (_ & He1 & _). lia.
    + rewrite Hsum. eexists. split; [reflexivity |].
      cbn [Py.int]. f_equal.
      rewrite Z.quot_div_nonneg by lia.
      apply (rounded_sum_trunc _ _ m e); try assumption; lia.
Qed.

(** ** The round trip *)




(** * More of the code *)

(** ** FeeTier.create, all versions *)

Lemma of_value_Some (v : Z) (f : FeeTier.t) :
  FeeTier.of_value v = Some f -> FeeTier.value f = v.
Proof.
  unfold FeeTier.of_value.
  destruct (Z.eqb_spec v 100); [intros [= <-]; simpl; lia |].
  destruct (Z.eqb_spec v 500); [intros [= <-]; simpl; lia |].
  destruct (Z.eqb_spec v 3000); [intros [= <-]; simpl; lia |].
  destruct (Z.eqb_spec v 10000); [intros [= <-]; simpl; lia |].
  discriminate.
Qed.

(** From version 3 on, every tier is accepted under its own value: creating
    a fee tier from the value of a tier gives that tier back. *)
Theorem create_of_value_round_trip (f : FeeTier.t) (version : Z) :
  3 <= version ->
  FeeTier.create (Some (FeeTier.value f)) version = Ok f.
Proof.
  intros Hv. unfold FeeTier.create. rewrite andb_false_r.
  replace (version <? 3) with false by (symmetry; apply Z.ltb_ge; lia).
  destruct f; reflexivity.
Qed.

Lemma create_of_value_round_trip_witness :
  FeeTier.create (Some (FeeTier.value FeeTier.TIER_500)) 3
  = Ok FeeTier.TIER_500.
Proof. apply create_of_value_round_trip. lia. Defined.

(** Whatever [FeeTier.create] returns carries the value it was given, 3000
    standing in for a missing value or for 0; below version 3 it can only
    return the tier 3000. *)
Theorem create_returns_the_given_value (value_ : option Z) (version : Z)
  (f : FeeTier.t) :
  FeeTier.create value_ version = Ok f ->
  FeeTier.value f = FeeTier.or_TIER_3000 value_ /\
  (version < 3 -> f = FeeTier.TIER_3000).
Proof.
  unfold FeeTier.create.
  destruct ((version =? 3) && FeeTier.is_None value_); [discriminate |].
  destruct (Z.ltb_spec version 3) as [Hlt | Hge]; cbn [andb].
  - destruct (Z.eqb_spec (FeeTier.or_TIER_3000 value_)
                (FeeTier.value FeeTier.TIER_3000)) as [E | E];
      cbn [negb]; [| discriminate].
    rewrite E. cbn. intros [= <-]. split; [reflexivity | auto].
  - destruct (FeeTier.of_value (FeeTier.or_TIER_3000 value_)) as [g |] eqn:E;
      [| discriminate].
    intros [= <-]. split; [apply of_value_Some; exact E | lia].
Qed.

Lemma create_returns_the_given_value_witness :
  FeeTier.value FeeTier.TIER_10000 = FeeTier.or_TIER_3000 (Some 10000) /\
  (3 < 3 -> FeeTier.TIER_10000 = FeeTier.TIER_3000).
Proof.
  apply (create_returns_the_given_value (Some 10000) 3). reflexivity.
Defined.

(** [ExplicitFeeTierRequred] is raised for a missing value on version 3 and
    in no other case: on a version above 3 a missing value is 3000. *)
Theorem create_explicit_required_iff (value_ : option Z) (version : Z) :
  (FeeTier.create value_ version = Raise ExplicitFeeTierRequred
   <-> version = 3 /\ value_ = None) /\
  (3 < version -> FeeTier.create None version = Ok FeeTier.TIER_3000).
Proof.
  split.
  - unfold FeeTier.create. split.
    + destruct (Z.eqb_spec version 3) as [E | E]; cbn [andb].
      * destruct value_ as [v |]; cbn [FeeTier.is_None]; [| auto].
        destruct (version <? 3); cbn [andb].
        -- destruct (negb _); [discriminate |].
           destruct (FeeTier.of_value _); discriminate.
        -- destruct (FeeTier.of_value _); discriminate.
      * destruct ((version <? 3) && _); [discriminate |].
        destruct (FeeTier.of_value _); discriminate.
    + intros [-> ->]. reflexivity.
  - intros Hv. unfold FeeTier.create.
    replace (version =? 3) with false by (symmetry; apply Z.eqb_neq; lia).
    replace (version <? 3) with false by (symmetry; apply Z.ltb_ge; lia).
    reflexivity.
Qed.

Lemma create_explicit_required_iff_witness :
  FeeTier.create None 4 = Ok FeeTier.TIER_3000.
Proof.
  apply (proj2 (create_explicit_required_iff None 4)). lia.
Defined.

(** ** make_trade: one balance check, then the version's swap *)

Lemma addr_eqb_sym (a b : AddressLike) : addr_eqb a b = addr_eqb b a.
Proof. apply String.eqb_sym. Qed.

Lemma addr_eqb_refl (a : AddressLike) : addr_eqb a a = true.
Proof. apply String.eqb_refl. Qed.

(** ETH for a token: with the approval done and a valid fee tier,
    [make_trade] refuses a quantity above the ETH balance with
    [InsufficientBalance balance qty] and otherwise hands the trade to the
    version's [_eth_to_token_swap_input], with the default slippage when
    none is given. *)
Theorem make_trade_eth_for_token (env : Env) (self : Uniswap)
  (output_token : AddressLike) (qty : Z) (recipient : option AddressLike)
  (fee : option Z) (slippage : option Py.float) (fee_on_transfer : bool)
  (f : FeeTier.t) :
  check_approval env (ETH_ADDRESS env) output_token = Ok tt ->
  FeeTier.create fee (_version self) = Ok f ->
  addr_eqb (ETH_ADDRESS env) output_token = false ->
  BaseUniswap.make_trade env self (ETH_ADDRESS env) output_token (Py.Int qty)
    recipient fee slippage fee_on_transfer
  = if qty >? BaseUniswap.get_eth_balance env self
    then Raise (InsufficientBalance (BaseUniswap.get_eth_balance env self) qty)
    else _eth_to_token_swap_input self output_token qty recipient f
           (BaseUniswap.slippage_or_default self slippage) fee_on_transfer.
Proof.
  intros Happ Hfee Hne.
  unfold BaseUniswap.make_trade. rewrite Happ. cbn [bind].
  rewrite Hfee. cbn [bind]. cbv zeta. rewrite Hne, addr_eqb_refl.
  unfold BaseUniswap._wrap_eth_to_token_swap_input. cbv zeta.
  rewrite addr_eqb_sym, Hne. reflexivity.
Qed.

Lemma make_trade_eth_for_token_witness :
  BaseUniswap.make_trade (Fixture.env Fixture.pools 1010 1010 1000)
    (Fixture.v1 (Fixture.env Fixture.pools 1010 1010 1000))
    Fixture.ETH "A" (Py.Int 2000) None None None false
  = Raise (InsufficientBalance 1010 2000).
Proof.
  exact (make_trade_eth_for_token
           (Fixture.env Fixture.pools 1010 1010 1000)
           (Fixture.v1 (Fixture.env Fixture.pools 1010 1010 1000))
           "A" 2000 None None None false FeeTier.TIER_3000
           eq_refl eq_refl eq_refl).
Defined.

(** A token for ETH: the balance of the input token is read, a quantity
    above it is refused with [InsufficientBalance], otherwise the trade
    goes to the version's [_token_to_eth_swap_input]. *)
Theorem make_trade_token_for_eth (env : Env) (self : Uniswap)
  (input_token : AddressLike) (qty : Z) (recipient : option AddressLike)
  (fee : option Z) (slippage : option Py.float) (fee_on_transfer : bool)
  (f : FeeTier.t) :
  check_approval env input_token (ETH_ADDRESS env) = Ok tt ->
  FeeTier.create fee (_version self) = Ok f ->
  addr_eqb input_token (ETH_ADDRESS env) = false ->
  BaseUniswap.make_trade env self input_token (ETH_ADDRESS env) (Py.Int qty)
    recipient fee slippage fee_on_transfer
  = (input_balance <- BaseUniswap.get_token_balance env self input_token ;;
     if qty >? input_balance
     then Raise (InsufficientBalance input_balance qty)
     else _token_to_eth_swap_input self input_token qty recipient f
            (BaseUniswap.slippage_or_default self slippage) fee_on_transfer).
Proof.
  intros Happ Hfee Hne.
  unfold BaseUniswap.make_trade. rewrite Happ. cbn [bind].
  rewrite Hfee. cbn [bind]. cbv zeta. rewrite Hne, addr_eqb_refl.
  unfold BaseUniswap._wrap_token_to_eth_swap_input. cbv zeta.
  rewrite Hne. reflexivity.
Qed.

Lemma make_trade_token_for_eth_witness :
  BaseUniswap.make_trade (Fixture.env Fixture.pools 1010 1010 1000)
    (Fixture.v1 (Fixture.env Fixture.pools 1010 1010 1000))
    "A" Fixture.ETH (Py.Int 2000) None None None false
  = Raise (InsufficientBalance 1010 2000).
Proof.
  exact (make_trade_token_for_eth
           (Fixture.env Fixture.pools 1010 1010 1000)
           (Fixture.v1 (Fixture.env Fixture.pools 1010 1010 1000))
           "A" 2000 None None None false FeeTier.TIER_3000
           eq_refl eq_refl eq_refl).
Defined.

(** A token for another token: the balance check comes first, and the
    version's [_token_to_token_swap_input] always receives a recipient,
    the wallet's own address when none (or an empty one) is given. *)
Theorem make_trade_token_for_token (env : Env) (self : Uniswap)
  (input_token output_token : AddressLike) (qty : Z)
  (recipient : option AddressLike) (fee : option Z)
  (slippage : option Py.float) (fee_on_transfer : bool) (f : FeeTier.t) :
  check_approval env input_token output_token = Ok tt ->
  FeeTier.create fee (_version self) = Ok f ->
  addr_eqb input_token output_token = false ->
  addr_eqb input_token (ETH_ADDRESS env) = false ->
  addr_eqb output_token (ETH_ADDRESS env) = false ->
  BaseUniswap.make_trade env self input_token output_token (Py.Int qty)
    recipient fee slippage fee_on_transfer
  = (input_balance <- BaseUniswap.get_token_balance env self input_token ;;
     if qty >? input_balance
     then Raise (InsufficientBalance input_balance qty)
     else _token_to_token_swap_input self input_token output_token qty
            (if falsy recipient then Some (address self) else recipient) f
            (BaseUniswap.slippage_or_default self slippage) fee_on_transfer).
Proof.
  intros Happ Hfee Hne Hi Ho.
  unfold BaseUniswap.make_trade. rewrite Happ. cbn [bind].
  rewrite Hfee. cbn [bind]. cbv zeta. rewrite Hne, Hi, Ho.
  unfold BaseUniswap._wrap_token_to_token_swap_input. cbv zeta.
  rewrite (addr_eqb_sym (ETH_ADDRESS env) input_token), Hi.
  rewrite (addr_eqb_sym (ETH_ADDRESS env) output_token), Ho.
  reflexivity.
Qed.

Lemma make_trade_token_for_token_witness :
  BaseUniswap.make_trade (Fixture.env Fixture.pools 1010 1010 1000)
    (Fixture.v1 (Fixture.env Fixture.pools 1010 1010 1000))
    "A" "B" (Py.Int 2000) None None None false
  = Raise (InsufficientBalance 1010 2000).
Proof.
  exact (make_trade_token_for_token
           (Fixture.env Fixture.pools 1010 1010 1000)
           (Fixture.v1 (Fixture.env Fixture.pools 1010 1010 1000))
           "A" "B" 2000 None None None false FeeTier.TIER_3000
           eq_refl eq_refl eq_refl eq_refl eq_refl).
Defined.

(** A quantity that is not an int is refused with [TypeError] before the
    fee tier and the tokens are looked at. *)
Theorem make_trade_float_quantity (env : Env) (self : Uniswap)
  (input_token output_token : AddressLike) (q : Py.float)
  (recipient : option AddressLike) (fee : option Z)
  (slippage : option Py.float) (fee_on_transfer : bool) :
  check_approval env input_token output_token = Ok tt ->
  BaseUniswap.make_trade env self input_token output_token (Py.Float q)
    recipient fee slippage fee_on_transfer = Raise TypeError.
Proof.
  intros Happ. unfold BaseUniswap.make_trade. rewrite Happ. reflexivity.
Qed.

Lemma make_trade_float_quantity_witness :
  BaseUniswap.make_trade (Fixture.env Fixture.pools 1010 1010 1000)
    (Fixture.v1 (Fixture.env Fixture.pools 1010 1010 1000))
    "A" "A" (Py.Float Py.one) None (Some 500) None false = Raise TypeError.
Proof.
  exact (make_trade_float_quantity
           (Fixture.env Fixture.pools 1010 1010 1000)
           (Fixture.v1 (Fixture.env Fixture.pools 1010 1010 1000))
           "A" "A" Py.one None (Some 500) None false eq_refl).
Defined.

(** ** make_trade_output: ETH for an exact amount of tokens *)

(** The balance is checked twice: against the quoted cost, raising
    [InsufficientBalance balance cost], and then against
    [int((1 + slippage) * cost)]. *)
Theorem make_trade_output_eth_for_token (env : Env) (self : Uniswap)
  (output_token : AddressLike) (qty : Z) (recipient : option AddressLike)
  (fee : option Z) (slippage : option Py.float) (f : FeeTier.t) (cost : Z) :
  check_approval env (ETH_ADDRESS env) output_token = Ok tt ->
  FeeTier.create fee (_version self) = Ok f ->
  addr_eqb (ETH_ADDRESS env) output_token = false ->
  _get_eth_token_output_price self output_token qty (Some f) = Ok cost ->
  BaseUniswap.make_trade_output env self (ETH_ADDRESS env) output_token qty
    recipient fee slippage
  = if BaseUniswap.get_eth_balance env self <? cost
    then Raise (InsufficientBalance (BaseUniswap.get_eth_balance env self)
                  cost)
    else
      (amount_in_max <-
         int_ ((1 + BaseUniswap.slippage_or_default self slippage) * cost)%pyx ;;
       if amount_in_max >? BaseUniswap.get_eth_balance env self
       then Raise (InsufficientBalance (BaseUniswap.get_eth_balance env self)
                     amount_in_max)
       else _eth_to_token_swap_output self output_token qty recipient f
              (BaseUniswap.slippage_or_default self slippage)).
Proof.
  intros Happ Hfee Hne Hcost.
  unfold BaseUniswap.make_trade_output. rewrite Happ. cbn [bind].
  rewrite Hfee. cbn [bind]. cbv zeta. rewrite Hne, addr_eqb_refl.
  rewrite Hcost. cbn [bind].
  destruct (BaseUniswap.get_eth_balance env self <? cost); [reflexivity |].
  unfold BaseUniswap._wrap_eth_to_token_swap_output. cbv zeta.
  rewrite addr_eqb_sym, Hne, Hcost. reflexivity.
Qed.

Lemma make_trade_output_eth_for_token_witness :
  BaseUniswap.make_trade_output (Fixture.env Fixture.pools 999 999 1000)
    (Fixture.v1 (Fixture.env Fixture.pools 999 999 1000))
    Fixture.ETH "A" 5 None None None
  = Raise (InsufficientBalance 999 1000).
Proof.
  exact (make_trade_output_eth_for_token
           (Fixture.env Fixture.pools 999 999 1000)
           (Fixture.v1 (Fixture.env Fixture.pools 999 999 1000))
           "A" 5 None None None FeeTier.TIER_3000 1000
           eq_refl eq_refl eq_refl eq_refl).
Defined.

(** ** The V1 client *)

(** The V1 client runs as version 0, a single-tier version: its four
    operations refuse every fee other than 0 and 3000 with
    [InvalidFeeTier], whatever the tokens and the quantity. *)
Theorem v1_refuses_other_fee_tiers (env : Env) (address_ : AddressLike)
  (default_slippage_ : Py.float) (token0 token1 : AddressLike) (qty : Z)
  (recipient : option AddressLike) (v : Z) (slippage : option Py.float)
  (fee_on_transfer : bool) (route : option (list AddressLike)) :
  v <> 0 -> v <> 3000 ->
  check_approval env token0 token1 = Ok tt ->
  let self := UniswapV1.client env address_ default_slippage_ in
  BaseUniswap.get_price_input env self token0 token1 qty (Some v) route
  = Raise InvalidFeeTier /\
  BaseUniswap.get_price_output env self token0 token1 qty (Some v) route
  = Raise InvalidFeeTier /\
  BaseUniswap.make_trade env self token0 token1 (Py.Int qty) recipient
    (Some v) slippage fee_on_transfer = Raise InvalidFeeTier /\
  BaseUniswap.make_trade_output env self token0 token1 qty recipient
    (Some v) slippage = Raise InvalidFeeTier.
Proof.
  intros H0 H3000 Happ self.
  assert (Hfee : FeeTier.create (Some v) (_version self)
                 = Raise InvalidFeeTier).
  { apply create_Some_below_3; [reflexivity | assumption ..]. }
  unfold BaseUniswap.get_price_input, BaseUniswap.get_price_output,
    BaseUniswap.make_trade, BaseUniswap.make_trade_output.
  rewrite Happ, Hfee. cbn [bind]. auto.
Qed.

Lemma v1_refuses_other_fee_tiers_witness :
  BaseUniswap.get_price_input (Fixture.env Fixture.pools 1010 1010 1000)
    (UniswapV1.client (Fixture.env Fixture.pools 1010 1010 1000) "me"
       Py.lit_0_01)
    Fixture.ETH "A" 1 (Some 500) None = Raise InvalidFeeTier.
Proof.
  refine (proj1 (v1_refuses_other_fee_tiers
                   (Fixture.env Fixture.pools 1010 1010 1000) "me"
                   Py.lit_0_01 Fixture.ETH "A" 1 None 500 None false None
                   _ _ eq_refl)); discriminate.
Defined.

(** V1 has no token-to-token price: with a valid fee tier and neither side
    ETH, both price operations raise [UnsupportedUniSwapVersion 0]. *)
Theorem v1_no_token_to_token_price (env : Env) (address_ : AddressLike)
  (default_slippage_ : Py.float) (token0 token1 : AddressLike) (qty : Z)
  (fee : option Z) (route : option (list AddressLike)) (f : FeeTier.t) :
  FeeTier.create fee 0 = Ok f ->
  let self := UniswapV1.client env address_ default_slippage_ in
  (addr_eqb token0 (ETH_ADDRESS env) = false ->
   addr_eqb token1 (ETH_ADDRESS env) = false ->
   BaseUniswap.get_price_input env self token0 token1 qty fee route
   = Raise (UnsupportedUniSwapVersion 0)) /\
  (is_same_address env token0 (ETH_ADDRESS env) = false ->
   is_same_address env token1 (ETH_ADDRESS env) = false ->
   BaseUniswap.get_price_output env self token0 token1 qty fee route
   = Raise (UnsupportedUniSwapVersion 0)).
Proof.
  intros Hfee self. split; intros H0 H1.
  - unfold BaseUniswap.get_price_input.
    change (_version self) with 0. rewrite Hfee. cbn [bind]. cbv zeta.
    rewrite H0, H1. reflexivity.
  - unfold BaseUniswap.get_price_output.
    change (_version self) with 0. rewrite Hfee. cbn [bind]. cbv zeta.
    rewrite H0, H1. reflexivity.
Qed.

Lemma v1_no_token_to_token_price_witness :
  BaseUniswap.get_price_input (Fixture.env Fixture.pools 1010 1010 1000)
    (UniswapV1.client (Fixture.env Fixture.pools 1010 1010 1000) "me"
       Py.lit_0_01)
    "A" "B" 1 None None = Raise (UnsupportedUniSwapVersion 0).
Proof.
  exact (proj1 (v1_no_token_to_token_price
                  (Fixture.env Fixture.pools 1010 1010 1000) "me"
                  Py.lit_0_01 "A" "B" 1 None None FeeTier.TIER_3000 eq_refl)
           eq_refl eq_refl).
Defined.

(** On V1 an exact-output trade between two tokens never reaches the
    exchange: once the approval, the fee tier and the address check have
    passed, [make_trade_output] raises [UnsupportedUniSwapVersion 0] when it
    asks for the price, before any balance comparison or transaction. *)
Theorem v1_no_token_to_token_exact_output (env : Env)
  (address_ : AddressLike) (default_slippage_ : Py.float)
  (input_token output_token : AddressLike) (qty : Z)
  (recipient : option AddressLike) (fee : option Z)
  (slippage : option Py.float) (f : FeeTier.t) :
  check_approval env input_token output_token = Ok tt ->
  FeeTier.create fee 0 = Ok f ->
  addr_eqb input_token output_token = false ->
  addr_eqb input_token (ETH_ADDRESS env) = false ->
  addr_eqb output_token (ETH_ADDRESS env) = false ->
  _validate_address env input_token = Ok tt ->
  BaseUniswap.make_trade_output env
    (UniswapV1.client env address_ default_slippage_)
    input_token output_token qty recipient fee slippage
  = Raise (UnsupportedUniSwapVersion 0).
Proof.
  intros Happ Hfee Hne Hi Ho Hval.
  unfold BaseUniswap.make_trade_output. rewrite Happ. cbn [bind].
  change (_version (UniswapV1.client env address_ default_slippage_)) with 0.
  rewrite Hfee. cbn [bind]. cbv zeta. rewrite Hne, Hi, Ho.
  unfold BaseUniswap._wrap_token_to_token_swap_output. cbv zeta.
  rewrite (addr_eqb_sym (ETH_ADDRESS env) input_token), Hi.
  rewrite (addr_eqb_sym (ETH_ADDRESS env) output_token), Ho.
  cbn [orb]. unfold BaseUniswap.get_token_balance. cbv zeta.
  rewrite Hval. cbn [bind]. rewrite Hi. reflexivity.
Qed.

Lemma v1_no_token_to_token_exact_output_witness :
  BaseUniswap.make_trade_output (Fixture.env Fixture.pools 1010 1010 1000)
    (UniswapV1.client (Fixture.env Fixture.pools 1010 1010 1000) "me"
       Py.lit_0_01)
    "A" "B" 1 None None None = Raise (UnsupportedUniSwapVersion 0).
Proof.
  exact (v1_no_token_to_token_exact_output
           (Fixture.env Fixture.pools 1010 1010 1000) "me" Py.lit_0_01
           "A" "B" 1 None None None FeeTier.TIER_3000
           eq_refl eq_refl eq_refl eq_refl eq_refl eq_refl).
Defined.

(** ** The two-hop amount of an exact input *)


(** ** The quotes as floats *)

Lemma pow2_1000_pos : 0 < 2 ^ 1000.
Proof. apply Z.pow_pos_nonneg; lia. Qed.

(** For a positive amount and reserves, with the numerator and the
    denominator below [2 ^ 1000] (any 256-bit quantities are), the
    exact-input quote raises nothing and is a positive finite float with a
    full 53-bit significand, within half a unit of its last place of the
    exact quotient. *)
Theorem exact_input_quote_rounded (amountIn reserveIn reserveOut : Z) :
  0 < amountIn -> 0 <= reserveIn -> 0 < reserveOut ->
  amountIn * reserveOut * 997 < 2 ^ 1000 ->
  reserveIn * 1000 + amountIn * 997 < 2 ^ 1000 ->
  exists (m : positive) (e : Z),
    UniswapV1.outputAmount_of amountIn reserveIn reserveOut
    = Ok (Py.Float (S754_finite false m e)) /\
    Round.rounded (amountIn * reserveOut * 997)
      (reserveIn * 1000 + amountIn * 997) m e.
Proof.
  intros Ha Hi Ho Hn Hd.
  assert (Hn0 : 0 < amountIn * reserveOut * 997) by nia.
  assert (Hd0 : 0 < reserveIn * 1000 + amountIn * 997) by lia.
  rewrite outputAmount_of_ints.
  destruct (int_true_divide_rounded (amountIn * reserveOut * 997)
              (reserveIn * 1000 + amountIn * 997))
    as (m & e & Hres & Hr & _); [rewrite Z.abs_eq; lia .. |].
  rewrite !Z.abs_eq in Hr by lia.
  replace (amountIn * reserveOut * 997 <? 0) with false in Hres
    by (symmetry; apply Z.ltb_ge; lia).
  replace (reserveIn * 1000 + amountIn * 997 <? 0) with false in Hres
    by (symmetry; apply Z.ltb_ge; lia).
  exists m, e. rewrite Hres. split; [reflexivity | exact Hr].
Qed.

Lemma exact_input_quote_rounded_witness :
  exists (m : positive) (e : Z),
    UniswapV1.outputAmount_of (10 ^ 18) (10 ^ 21) (10 ^ 24)
    = Ok (Py.Float (S754_finite false m e)) /\
    Round.rounded (10 ^ 18 * 10 ^ 24 * 997)
      (10 ^ 21 * 1000 + 10 ^ 18 * 997) m e.
Proof.
  apply (exact_input_quote_rounded (10 ^ 18) (10 ^ 21) (10 ^ 24));
    try reflexivity; discriminate.
Defined.

(** The exact-output quote raises nothing as soon as the requested amount
    differs from the output reserve (sizes as above): its quotient is a
    finite float, negative exactly when the amount exceeds the reserve, to
    which [1.0] is added. *)
Theorem exact_output_quote_returns (amountOut reserveIn reserveOut : Z) :
  0 < amountOut -> 0 < reserveIn -> amountOut <> reserveOut ->
  amountOut * reserveIn * 1000 < 2 ^ 1000 ->
  Z.abs ((reserveOut - amountOut) * 997) < 2 ^ 1000 ->
  exists (m : positive) (e : Z),
    Py.int_true_divide (amountOut * reserveIn * 1000)
      ((reserveOut - amountOut) * 997)
    = Ok (S754_finite (reserveOut <? amountOut) m e) /\
    Round.rounded (amountOut * reserveIn * 1000)
      (Z.abs ((reserveOut - amountOut) * 997)) m e /\
    UniswapV1.inputAmount_of amountOut reserveIn reserveOut
    = Ok (Py.Float (SFadd Py.prec Py.emax
                      (S754_finite (reserveOut <? amountOut) m e) Py.one)).
Proof.
  intros Ha Hi Hne Hn Hd.
  assert (Hn0 : 0 < amountOut * reserveIn * 1000) by nia.
  destruct (int_true_divide_rounded (amountOut * reserveIn * 1000)
              ((reserveOut - amountOut) * 997))
    as (m & e & Hres & Hr & _); [rewrite Z.abs_eq; lia | lia |].
  rewrite (Z.abs_eq (amountOut * reserveIn * 1000)) in Hr by lia.
  replace (amountOut * reserveIn * 1000 <? 0) with false in Hres
    by (symmetry; apply Z.ltb_ge; lia).
  replace ((reserveOut - amountOut) * 997 <? 0)
    with (reserveOut <? amountOut) in Hres.
  2:{ destruct (Z.ltb_spec reserveOut amountOut);
        [symmetry; apply Z.ltb_lt | symmetry; apply Z.ltb_ge]; lia. }
  cbn [xorb] in Hres.
  exists m, e. refine (conj Hres (conj Hr _)).
  rewrite inputAmount_of_ints, Hres. reflexivity.
Qed.

Lemma exact_output_quote_returns_witness :
  exists (m : positive) (e : Z),
    Py.int_true_divide (501 * 1000 * 1000) ((500 - 501) * 997)
    = Ok (S754_finite (500 <? 501) m e) /\
    Round.rounded (501 * 1000 * 1000) (Z.abs ((500 - 501) * 997)) m e /\
    UniswapV1.inputAmount_of 501 1000 500
    = Ok (Py.Float (SFadd Py.prec Py.emax
                      (S754_finite (500 <? 501) m e) Py.one)).
Proof.
  apply (exact_output_quote_returns 501 1000 500);
    try reflexivity; discriminate.
Defined.

(** Below [2 ^ 51] the integer part of the exact-input quote is the
    integer formula [floor(amountIn * reserveOut * 997 / (reserveIn * 1000
    + amountIn * 997))]. *)
Theorem exact_input_quote_integer_part (amountIn reserveIn reserveOut : Z) :
  0 < amountIn -> 0 < reserveIn -> 0 < reserveOut ->
  amountIn * reserveOut * 997 < 2 ^ 51 ->
  reserveIn * 1000 + amountIn * 997 < 2 ^ 51 ->
  int_ (UniswapV1.outputAmount_of amountIn reserveIn reserveOut)
  = Ok ((amountIn * reserveOut * 997)
        / (reserveIn * 1000 + amountIn * 997)).
Proof.
  intros Ha Hi Ho Hn Hd.
  rewrite outputAmount_of_int_part by assumption.
  unfold Spec.exact_input. cbv zeta.
  rewrite Z.quot_div_nonneg by nia. reflexivity.
Qed.

Lemma exact_input_quote_integer_part_witness :
  int_ (UniswapV1.outputAmount_of 1000 1000000 2000000)
  = Ok ((1000 * 2000000 * 997) / (1000000 * 1000 + 1000 * 997)).
Proof.
  apply (exact_input_quote_integer_part 1000 1000000 2000000); reflexivity.
Defined.

(** Below [2 ^ 51] the integer part of the exact-output quote is the
    integer formula [floor(amountOut * reserveIn * 1000 / ((reserveOut -
    amountOut) * 997)) + 1]: the float sum with [1.0] never rounds up to
    the next integer there. *)
Theorem exact_output_quote_integer_part (amountOut reserveIn reserveOut : Z) :
  0 <= amountOut < reserveOut -> 0 < reserveIn ->
  amountOut * reserveIn * 1000 < 2 ^ 51 ->
  (reserveOut - amountOut) * 997 < 2 ^ 51 ->
  int_ (UniswapV1.inputAmount_of amountOut reserveIn reserveOut)
  = Ok ((amountOut * reserveIn * 1000) / ((reserveOut - amountOut) * 997)
        + 1).
Proof.
  intros Ha Hi Hn Hd.
  destruct (inputAmount_of_int_part amountOut reserveIn reserveOut)
    as (r & Hr & Hint); try assumption.
  rewrite Hr. unfold int_. cbn [bind]. rewrite Hint.
  unfold Spec.exact_output. cbv zeta.
  rewrite Z.quot_div_nonneg by nia. reflexivity.
Qed.

Lemma exact_output_quote_integer_part_witness :
  int_ (UniswapV1.inputAmount_of 1000 4000000 2000000)
  = Ok ((1000 * 4000000 * 1000) / ((2000000 - 1000) * 997) + 1).
Proof.
  apply (exact_output_quote_integer_part 1000 4000000 2000000);
    try reflexivity. split; [discriminate | reflexivity].
Defined.
